(** * pymino/ext/account.py: the [Account] request builders

    A shallow embedding of the [Account] class and the statements that the
    specification makes about it.  Every method of the class builds one
    request (a keyword call of [self.session.handler]) and wraps what the
    handler returns.  The embedding keeps the order in which Python
    evaluates the pieces of such a call: the callee [self.session.handler]
    first, then the keyword arguments from left to right, then the call. *)

From Stdlib Require Import ZArith String List Floats.
From stdpp Require Import base option strings gmap.
Import ListNotations.

Local Open Scope Z_scope.
Local Open Scope string_scope.
Local Open Scope list_scope.

Set Warnings "-register-all,-inexact-float".

(** ** Python values *)

(** The values that appear in request payloads and in decoded responses.
    A [dict] is kept as the list of its items in insertion order, which is
    the order in which a dict display lists them. *)
Inductive value : Type :=
| VNone
| VBool (b : bool)
| VInt (z : Z)
| VStr (s : string)
| VBytes (b : list Byte.byte)
| VList (l : list value)
| VDict (d : list (string * value)).

(** What a caller hands to a method.  The annotations of the signatures
    ([str], [bool]) are not enforced when the program runs, so a parameter
    annotated [str] may also receive [None] or a [bool]. *)
Inductive pyval : Type :=
| PNone
| PBool (b : bool)
| PStr (s : string).

(** The payload value of an argument. *)
Definition val (a : pyval) : value :=
  match a with
  | PNone => VNone
  | PBool b => VBool b
  | PStr s => VStr s
  end.

(** A replacement field [{a}] of an f-string: [format(a, "")], which for
    these types is [str(a)]. *)
Definition py_format (a : pyval) : string :=
  match a with
  | PNone => "None"
  | PBool true => "True"
  | PBool false => "False"
  | PStr s => s
  end.

(** Truth value testing, as in the condition of [x if c else y]. *)
Definition truthy (a : pyval) : bool :=
  match a with
  | PNone => false
  | PBool b => b
  | PStr s => negb (String.eqb s "")
  end.

(** Items of a dict. *)
Fixpoint dict_get (k : string) (d : list (string * value)) : option value :=
  match d with
  | [] => None
  | (k', v) :: d' => if String.eqb k k' then Some v else dict_get k d'
  end.

Definition keys (d : list (string * value)) : list string := map fst d.

(** ** Requests, exceptions and the state of the world *)

(** One call [handler(method=..., url=..., data=..., content_type=...)];
    [None] stands for a keyword that the call does not pass. *)
Record Request : Type := mkRequest {
  method : string;
  url : string;
  data : option value;
  content_type : option string
}.

Inductive exn : Type :=
| AttributeError (name : string)
| TypeError
| OSError
| TransportError
| ApiError (code : Z) (message : string)
| ValidationError
| OverflowError
| ValueError
| OtherError (name : string).

Inductive outcome (A : Type) : Type :=
| Return (a : A)
| Raise (e : exn).
Arguments Return {A} a.
Arguments Raise {A} e.

(** ** The clock *)

(** [int(x)] for a float [x], a binary64 number as in Python: zero for a
    zero; for the finite [x] of mantissa [m] and exponent [e], the integer
    part of [m * 2 ^ e] with the sign of [x] (truncation towards zero);
    [OverflowError] for an infinity and [ValueError] for a NaN. *)
Definition py_int (x : float) : outcome Z :=
  match Prim2SF x with
  | S754_zero _ => Return 0
  | S754_finite sign m e =>
      let n := Z.shiftl (Z.pos m) e in
      Return (if sign then - n else n)
  | S754_infinity _ => Raise OverflowError
  | S754_nan => Raise ValueError
  end.

(** Whether [int(t * 1000)] has a value: the product, rounded to a float
    as the multiplication of floats does, is finite. *)
Definition finite_ms (t : float) : bool :=
  match py_int (PrimFloat.mul t 1000) with
  | Return _ => true
  | Raise _ => false
  end.

(** What [time()] returns: the seconds since the epoch as a float.  It is
    a finite number, small enough for its product by 1000 to be finite
    too. *)
Record reading : Type := mkReading {
  seconds : float;
  reading_ok : finite_ms seconds = true
}.

(** The value of [int(time() * 1000)] when [time()] returns [t]: the
    product is the product of floats, rounded to the nearest float, and
    [int] truncates it. *)
Definition millis (t : reading) : Z :=
  match py_int (PrimFloat.mul (seconds t) 1000) with
  | Return n => n
  | Raise _ => 0
  end.

(** [Session] is imported, not defined here.  Of a session the class uses
    one thing, its [handler].  What a call of the handler gives back, a
    decoded response or an exception, is a parameter of the model: a
    function of all the requests made so far, the current one last. *)
Record Session : Type := mkSession {
  handler : list Request -> outcome value;
  session_repr : string
}.

(** What an attribute of the instance holds. *)
Inductive attr : Type :=
| ASession (s : Session)
| AVal (v : pyval).

(** What [open] is given: a path or a file descriptor. *)
Inductive fileref : Type :=
| Path (p : string)
| Fd (n : Z).

(** The state a method runs in.  [device_id] and [time] come from the star
    import and are not defined in the class: the values they return, call
    after call, are parameters ([devs 0] is what the next call of
    [device_id()] returns, [clock 0] the next reading of [time()]).
    [fs] gives what opening and reading a file produces: its bytes, or the
    exception of the operating system.  [self_dict] holds the attributes of
    the instance and [sent] the calls of the handler made so far. *)
Record State : Type := mkState {
  self_dict : gmap string attr;
  devs : nat -> string;
  clock : nat -> reading;
  fs : fileref -> outcome (list Byte.byte);
  sent : list Request
}.

(** ** The monad of method bodies: state and exceptions *)

Definition M (A : Type) : Type := State -> outcome A * State.

Definition ret {A : Type} (a : A) : M A := fun st => (Return a, st).

Definition raise {A : Type} (e : exn) : M A := fun st => (Raise e, st).

Definition bind {A B : Type} (c : M A) (k : A -> M B) : M B :=
  fun st =>
    match c st with
    | (Return a, st') => k a st'
    | (Raise e, st') => (Raise e, st')
    end.

Declare Scope py_scope.
Delimit Scope py_scope with py.
Notation "x <- c ;; k" := (bind c (fun x => k))
  (at level 100, c at next level, right associativity) : py_scope.
Local Open Scope py_scope.

(** [self.name] *)
Definition getattr (name : string) : M attr :=
  fun st =>
    match self_dict st !! name with
    | Some a => (Return a, st)
    | None => (Raise (AttributeError name), st)
    end.

(** [self.name = a] *)
Definition setattr (name : string) (a : attr) : M unit :=
  fun st =>
    (Return tt,
     mkState (<[name := a]> (self_dict st)) (devs st) (clock st) (fs st) (sent st)).

(** [self.session.handler]: the bound method, before it is called. *)
Definition session_handler : M Session :=
  s <- getattr "session" ;;
  match s with
  | ASession s => ret s
  | AVal _ => raise (AttributeError "handler")
  end.

(** [device_id()] *)
Definition device_id : M string :=
  fun st =>
    (Return (devs st 0%nat),
     mkState (self_dict st) (fun n => devs st (S n)) (clock st) (fs st) (sent st)).

(** [time()] *)
Definition time : M float :=
  fun st =>
    (Return (seconds (clock st 0%nat)),
     mkState (self_dict st) (devs st) (fun n => clock st (S n)) (fs st) (sent st)).

(** [int(x)], which raises where [x] has no integer part. *)
Definition int (x : float) : M Z := fun st => (py_int x, st).

(** [int(time() * 1000)] *)
Definition timestamp : M value :=
  t <- time ;;
  n <- int (PrimFloat.mul t 1000) ;;
  ret (VInt n).

(** [open(f, "rb").read()] *)
Definition read_file (f : pyval) : M (list Byte.byte) :=
  match f with
  | PNone => raise TypeError
  | PBool b => fun st => (fs st (Fd (if b then 1 else 0)), st)
  | PStr p => fun st => (fs st (Path p), st)
  end.

(** The call of the handler [h] with the keyword arguments [req]. *)
Definition send (h : Session) (req : Request) : M value :=
  fun st =>
    let log := sent st ++ [req] in
    (handler h log,
     mkState (self_dict st) (devs st) (clock st) (fs st) log).

(** ** The class *)

(** The response wrappers, which come from the star import. *)
Inductive wrapper : Type :=
| Authenticate
| SResponse
| Wallet
| ResetPassword.

(** What a method returns: the wrapper object [cls(r)] built over the
    response [r] of the handler, or one attribute [cls(r).name] of it. *)
Inductive result : Type :=
| Wrapped (cls : wrapper) (r : value)
| Attribute (cls : wrapper) (name : string) (r : value).

(** [def __init__(self, session, debug=False)] *)
Definition __init__ (session : attr) (debug : pyval) : M unit :=
  _ <- setattr "session" session ;;
  setattr "debug" (AVal debug).

Definition register (email password username verificationCode : pyval) : M result :=
  h <- session_handler ;;
  dev <- device_id ;;
  ts <- timestamp ;;
  r <- send h
    {| method := "POST"; url := "/g/s/auth/register";
       data := Some (VDict
         [ ("secret", VStr ("0 " ++ py_format password));
           ("deviceID", VStr dev);
           ("email", val email);
           ("clientType", VInt 100);
           ("nickname", val username);
           ("validationContext", VDict
              [ ("data", VDict [ ("code", val verificationCode) ]);
                ("type", VInt 1);
                ("identity", val email) ]);
           ("type", VInt 1);
           ("identity", val email);
           ("timestamp", ts) ]);
       content_type := None |} ;;
  ret (Wrapped Authenticate r).

Definition delete_request (email password : pyval) : M result :=
  h <- session_handler ;;
  dev <- device_id ;;
  ts <- timestamp ;;
  r <- send h
    {| method := "POST"; url := "/g/s/account/delete-request";
       data := Some (VDict
         [ ("secret", VStr ("0 " ++ py_format password));
           ("deviceID", VStr dev);
           ("email", val email);
           ("timestamp", ts) ]);
       content_type := None |} ;;
  ret (Attribute SResponse "json" r).

Definition delete_request_cancel (email password : pyval) : M result :=
  h <- session_handler ;;
  dev <- device_id ;;
  ts <- timestamp ;;
  r <- send h
    {| method := "POST"; url := "/g/s/account/delete-request/cancel";
       data := Some (VDict
         [ ("secret", VStr ("0 " ++ py_format password));
           ("deviceID", VStr dev);
           ("email", val email);
           ("timestamp", ts) ]);
       content_type := None |} ;;
  ret (Attribute SResponse "json" r).

Definition check_device (deviceId : pyval) : M result :=
  h <- session_handler ;;
  ts <- timestamp ;;
  r <- send h
    {| method := "POST"; url := "/g/s/device/check";
       data := Some (VDict
         [ ("deviceID", val deviceId);
           ("clientType", VInt 100);
           ("timezone", VInt (-310));
           ("systemPushEnabled", VBool true);
           ("timestamp", ts) ]);
       content_type := None |} ;;
  ret (Attribute SResponse "json" r).

Definition fetch_account : M result :=
  h <- session_handler ;;
  r <- send h
    {| method := "GET"; url := "/g/s/account";
       data := None; content_type := None |} ;;
  ret (Attribute SResponse "json" r).

Definition upload_image (image : pyval) : M result :=
  h <- session_handler ;;
  bs <- read_file image ;;
  r <- send h
    {| method := "POST"; url := "/g/s/media/upload";
       data := Some (VBytes bs); content_type := Some "image/jpg" |} ;;
  ret (Attribute SResponse "mediaValue" r).

(** The replacement field [{self.userId}]. *)
Definition format_attr (a : attr) : string :=
  match a with
  | ASession s => session_repr s
  | AVal v => py_format v
  end.

Definition fetch_profile : M result :=
  h <- session_handler ;;
  uid <- getattr "userId" ;;
  r <- send h
    {| method := "GET"; url := "/g/s/user-profile/" ++ format_attr uid;
       data := None; content_type := None |} ;;
  ret (Attribute SResponse "json" r).

Definition set_amino_id (aminoId : pyval) : M result :=
  h <- session_handler ;;
  ts <- timestamp ;;
  r <- send h
    {| method := "POST"; url := "/g/s/account/change-amino-id";
       data := Some (VDict
         [ ("aminoId", val aminoId);
           ("timestamp", ts) ]);
       content_type := None |} ;;
  ret (Attribute SResponse "json" r).

Definition fetch_wallet : M result :=
  h <- session_handler ;;
  r <- send h
    {| method := "GET"; url := "/g/s/wallet";
       data := None; content_type := None |} ;;
  ret (Attribute Wallet "json" r).

Definition request_security_validation (email resetPassword : pyval) : M result :=
  h <- session_handler ;;
  dev <- device_id ;;
  ts <- timestamp ;;
  r <- send h
    {| method := "POST"; url := "/g/s/auth/request-security-validation";
       data := Some (VDict
         [ ("identity", val email);
           ("type", VInt 1);
           ("deviceID", VStr dev);
           ("level", if truthy resetPassword then VInt 2 else VNone);
           ("purpose", if truthy resetPassword then VStr "reset-password" else VNone);
           ("timestamp", ts) ]);
       content_type := None |} ;;
  ret (Attribute SResponse "json" r).

Definition activate_email (email code : pyval) : M result :=
  h <- session_handler ;;
  dev <- device_id ;;
  ts <- timestamp ;;
  r <- send h
    {| method := "POST"; url := "/g/s/auth/activate-email";
       data := Some (VDict
         [ ("type", VInt 1);
           ("identity", val email);
           ("data", VDict [ ("code", val code) ]);
           ("deviceID", VStr dev);
           ("timestamp", ts) ]);
       content_type := None |} ;;
  ret (Attribute SResponse "json" r).

Definition reset_password (email new_password code : pyval) : M result :=
  h <- session_handler ;;
  dev1 <- device_id ;;
  dev2 <- device_id ;;
  r <- send h
    {| method := "POST"; url := "/g/s/auth/reset-password";
       data := Some (VDict
         [ ("updateSecret", VStr ("0 " ++ py_format new_password));
           ("emailValidationContext", VDict
              [ ("data", VDict [ ("code", val code) ]);
                ("type", VInt 1);
                ("identity", val email);
                ("level", VInt 2);
                ("deviceID", VStr dev1) ]);
           ("phoneNumberValidationContext", VNone);
           ("deviceID", VStr dev2) ]);
       content_type := None |} ;;
  ret (Wrapped ResetPassword r).

(** ** Calling a method *)

(** The public methods of the class. *)
Inductive operation : Type :=
| op_register
| op_delete_request
| op_delete_request_cancel
| op_check_device
| op_fetch_account
| op_upload_image
| op_fetch_profile
| op_set_amino_id
| op_fetch_wallet
| op_request_security_validation
| op_activate_email
| op_reset_password.

(** The name under which the class defines each method. *)
Definition method_name (op : operation) : string :=
  match op with
  | op_register => "register"
  | op_delete_request => "delete_request"
  | op_delete_request_cancel => "delete_request_cancel"
  | op_check_device => "check_device"
  | op_fetch_account => "fetch_account"
  | op_upload_image => "upload_image"
  | op_fetch_profile => "fetch_profile"
  | op_set_amino_id => "set_amino_id"
  | op_fetch_wallet => "fetch_wallet"
  | op_request_security_validation => "request_security_validation"
  | op_activate_email => "activate_email"
  | op_reset_password => "reset_password"
  end.

(** The parameters after [self] of each [def], with the default of those
    that have one. *)
Definition signature (op : operation) : list (string * option pyval) :=
  match op with
  | op_register =>
      [ ("email", None); ("password", None); ("username", None);
        ("verificationCode", None) ]
  | op_delete_request => [ ("email", None); ("password", None) ]
  | op_delete_request_cancel => [ ("email", None); ("password", None) ]
  | op_check_device => [ ("deviceId", None) ]
  | op_fetch_account => []
  | op_upload_image => [ ("image", None) ]
  | op_fetch_profile => []
  | op_set_amino_id => [ ("aminoId", None) ]
  | op_fetch_wallet => []
  | op_request_security_validation =>
      [ ("email", None); ("resetPassword", Some (PBool false)) ]
  | op_activate_email => [ ("email", None); ("code", None) ]
  | op_reset_password =>
      [ ("email", None); ("new_password", None); ("code", None) ]
  end.

(** Binding the arguments of a call to the parameters.  Calls pass their
    arguments by keyword, as the examples in the docstrings do.  A
    parameter takes the argument of its name, or else its default; a
    parameter left without a value is a [TypeError]. *)
Fixpoint bind_params (sig : list (string * option pyval))
    (kwargs : gmap string pyval) : outcome (gmap string pyval) :=
  match sig with
  | [] => Return ∅
  | (p, dflt) :: sig' =>
      match from_option Some dflt (kwargs !! p) with
      | None => Raise TypeError
      | Some v =>
          match bind_params sig' kwargs with
          | Return locals => Return (<[p := v]> locals)
          | Raise e => Raise e
          end
      end
  end.

(** A keyword that names no parameter is a [TypeError] as well. *)
Definition bind_args (sig : list (string * option pyval))
    (kwargs : gmap string pyval) : outcome (gmap string pyval) :=
  if bool_decide (dom kwargs ⊆ list_to_set (map fst sig))
  then bind_params sig kwargs
  else Raise TypeError.

(** The value of the parameter [p] in the body. *)
Definition local (locals : gmap string pyval) (p : string) : pyval :=
  default PNone (locals !! p).

Definition body (op : operation) (locals : gmap string pyval) : M result :=
  let arg := local locals in
  match op with
  | op_register =>
      register (arg "email") (arg "password") (arg "username")
        (arg "verificationCode")
  | op_delete_request => delete_request (arg "email") (arg "password")
  | op_delete_request_cancel =>
      delete_request_cancel (arg "email") (arg "password")
  | op_check_device => check_device (arg "deviceId")
  | op_fetch_account => fetch_account
  | op_upload_image => upload_image (arg "image")
  | op_fetch_profile => fetch_profile
  | op_set_amino_id => set_amino_id (arg "aminoId")
  | op_fetch_wallet => fetch_wallet
  | op_request_security_validation =>
      request_security_validation (arg "email") (arg "resetPassword")
  | op_activate_email => activate_email (arg "email") (arg "code")
  | op_reset_password =>
      reset_password (arg "email") (arg "new_password") (arg "code")
  end.

(** The call of the method [op] with the keyword arguments [kwargs]. *)
Definition call (op : operation) (kwargs : gmap string pyval) : M result :=
  match bind_args (signature op) kwargs with
  | Return locals => body op locals
  | Raise e => raise e
  end.

(** [Account(session, debug)]: a fresh instance, initialised by
    [__init__]. *)
Definition Account (session : attr) (debug : option pyval) (st : State) : State :=
  snd (__init__ session (default (PBool false) debug)
         (mkState ∅ (devs st) (clock st) (fs st) (sent st))).

(** The requests that running [c] from [st] adds to the log. *)
Definition issued {A : Type} (c : M A) (st : State) : list Request :=
  drop (length (sent st)) (sent (snd (c st))).

(** ** The collaborators, as the specification describes them *)

(** Modelled from the spec: the class [SResponse] is not among the
    sources.  The specification describes its result as a "thin typed view
    over the same underlying JSON": the attribute [json] is the "generic
    JSON result (pass-through decoded body)" and [mediaValue] is "the media
    URL field from the decoded JSON".  [None] where the specification says
    nothing. *)
Definition attribute_value (name : string) (r : value) : option value :=
  if String.eqb name "json" then Some r
  else if String.eqb name "mediaValue" then
    match r with
    | VDict d => dict_get "mediaValue" d
    | _ => None
    end
  else None.

(** Modelled from the spec: the transport under the session's handler is
    not among the sources.  The specification gives it as
    "send(method, path, body, contentType?) -> RawResponse{status, json?,
    bytes?}", where failures are a transport-level error.  [None] is such a
    failure.  The last three fields read the platform's error envelope in a
    decoded body: whether there is one, its numeric code and its message. *)
Record RawResponse : Type := mkRawResponse {
  status : Z;
  json : value
}.

Record Transport : Type := mkTransport {
  transport_send : list Request -> option RawResponse;
  has_envelope : value -> bool;
  error_code : value -> Z;
  error_message : value -> string
}.

(** Modelled from the spec: [Session.handler] is not among the sources.
    "Any non-success HTTP status, or a JSON body containing the platform's
    error envelope, must surface as a structured API error carrying the
    numeric code and message from the body; transport failures (timeout,
    DNS, TLS) surface as a distinct transport-error kind."  A status is not
    a success from 400 on. *)
Definition spec_handler (t : Transport) (log : list Request) : outcome value :=
  match transport_send t log with
  | None => Raise TransportError
  | Some resp =>
      if (400 <=? status resp)%Z || has_envelope t (json resp)
      then Raise (ApiError (error_code t (json resp)) (error_message t (json resp)))
      else Return (json resp)
  end.

Definition spec_session (t : Transport) : Session :=
  {| handler := spec_handler t; session_repr := "<Session>" |}.

(** ** A concrete world *)

(** A handler that answers every request with the number of requests seen
    so far and a media value. *)
Definition demo_session : Session :=
  {| handler := fun log =>
       Return (VDict [ ("api:statuscode", VInt 0);
                       ("seen", VInt (Z.of_nat (length log)));
                       ("mediaValue", VStr "http://media/1.jpg") ]);
     session_repr := "<Session>" |}.

Definition demo_world : State :=
  {| self_dict := ∅;
     devs := fun n => String (Ascii.ascii_of_nat (65 + n)) "-device";
     clock := fun n => mkReading 1700000000.123 eq_refl;
     fs := fun f =>
       match f with
       | Path "cat.jpg" => Return [Byte.xff; Byte.xd8; Byte.xff; Byte.xe0]
       | _ => Raise OSError
       end;
     sent := [] |}.

(** [Account(session)] in that world. *)
Definition demo_state : State := Account (ASession demo_session) None demo_world.

(** A transport that refuses every request: status 403 and an error
    envelope with a code and a message. *)
Definition demo_transport : Transport :=
  {| transport_send := fun _ =>
       Some {| status := 403;
               json := VDict [ ("api:statuscode", VInt 110);
                               ("api:message", VStr "Action not allowed.") ] |};
     has_envelope := fun v =>
       match v with
       | VDict d =>
           match dict_get "api:statuscode" d with
           | Some (VInt 0) | None => false
           | Some _ => true
           end
       | _ => false
       end;
     error_code := fun v =>
       match v with
       | VDict d =>
           match dict_get "api:statuscode" d with
           | Some (VInt c) => c
           | _ => 0
           end
       | _ => 0
       end;
     error_message := fun v =>
       match v with
       | VDict d =>
           match dict_get "api:message" d with
           | Some (VStr m) => m
           | _ => ""
           end
       | _ => ""
       end |}.

(** [Account(session)] over that transport. *)
Definition refused_state : State :=
  Account (ASession (spec_session demo_transport)) None demo_world.

(** ** Measures and sequences of calls *)

(** The size of a value, to tell a field of a dict from the dict. *)
Fixpoint vsize (v : value) : nat :=
  match v with
  | VList l => S (list_sum (map vsize l))
  | VDict d => S (list_sum (map (fun kv => vsize (snd kv)) d))
  | _ => 1%nat
  end.

(** Calls made one after the other; a caller that catches the exception of
    one call goes on with the next. *)
Fixpoint run_calls (calls : list (operation * gmap string pyval)) (st : State) : State :=
  match calls with
  | [] => st
  | (op, kwargs) :: rest => run_calls rest (snd (call op kwargs st))
  end.

(** The methods that send a [POST] request. *)
Definition is_post (op : operation) : bool :=
  match op with
  | op_fetch_account | op_fetch_profile | op_fetch_wallet => false
  | _ => true
  end.

(** ** Keys of a payload *)

(** No string occurs twice in [ks]. *)
Fixpoint distinct (ks : list string) : bool :=
  match ks with
  | [] => true
  | k :: ks' => negb (existsb (String.eqb k) ks') && distinct ks'
  end.

(** Every dict inside [v], [v] included, has each of its keys once: a dict
    display that names a key twice keeps the last item only. *)
Fixpoint well_keyed (v : value) : bool :=
  match v with
  | VList l => forallb well_keyed l
  | VDict d => distinct (map fst d) && forallb (fun kv => well_keyed (snd kv)) d
  | _ => true
  end.

(** ** Running a method *)

(** For a reading of the clock, [int(t * 1000)] has a value, and [millis]
    is this value. *)
Lemma py_int_millis (t : reading) :
  py_int (PrimFloat.mul (seconds t) 1000) = Return (millis t).
Proof.
  unfold millis. pose proof (reading_ok t) as Hok. unfold finite_ms in Hok.
  destruct (py_int _); [reflexivity | discriminate Hok].
Qed.

(** The product is rounded before it is truncated: the float nearest to
    1700000000.123 lies below it, and its product by 1000 rounds to
    1700000000123; truncation is towards zero. *)
Lemma millis_examples :
  millis (mkReading 1700000000.123 eq_refl) = 1700000000123 /\
  millis (mkReading 4.35 eq_refl) = 4350 /\
  millis (mkReading 0.0015 eq_refl) = 1 /\
  millis (mkReading (-0.0015) eq_refl) = -1 /\
  millis (mkReading 0 eq_refl) = 0 /\
  py_int infinity = Raise OverflowError /\
  py_int nan = Raise ValueError.
Proof. repeat split; vm_compute; reflexivity. Qed.

Lemma drop_log (log new : list Request) : drop (length log) (log ++ new) = new.
Proof. apply drop_app_length. Qed.

Lemma drop_log_nil (log : list Request) : drop (length log) log = [].
Proof. apply drop_all. Qed.

Lemma session_handler_run (st : State) (s : Session) :
  self_dict st !! "session" = Some (ASession s) ->
  session_handler st = (Return s, st).
Proof.
  intros H. unfold session_handler, bind, getattr. rewrite H. reflexivity.
Qed.

Lemma bind_run {A B : Type} (c : M A) (k : A -> M B) (st st' : State) (a : A) :
  c st = (Return a, st') -> bind c k st = k a st'.
Proof. intros H. unfold bind. rewrite H. reflexivity. Qed.

Lemma timestamp_run (st : State) :
  timestamp st =
    (Return (VInt (millis (clock st 0%nat))),
     mkState (self_dict st) (devs st) (fun n => clock st (S n)) (fs st) (sent st)).
Proof.
  unfold timestamp, bind, time, int, ret. rewrite py_int_millis. reflexivity.
Qed.

(** Unfolds a method body whose session is known by [H]. *)
Ltac run_method H :=
  unfold issued, register, delete_request, delete_request_cancel, check_device,
    fetch_account, upload_image, fetch_profile, set_amino_id, fetch_wallet,
    request_security_validation, activate_email, reset_password;
  rewrite (bind_run _ _ _ _ _ (session_handler_run _ _ H));
  cbn -[String.append millis lookup py_int];
  rewrite ?(bind_run _ _ _ _ _ (timestamp_run _));
  cbn -[String.append millis lookup py_int].

(** Closes a goal about the requests issued once the body is unfolded:
    whatever the handler answers, the log has grown by the one request. *)
Ltac one_request s :=
  destruct (handler s _); cbn -[String.append millis lookup py_int]; rewrite drop_log.

(** ** The secret of a password *)

(** C1: for every password string [p], [register] places
    [secret = "0 " + p] (the character 0, a space, then the password) in
    the payload of its request, and [reset_password] places
    [updateSecret = "0 " + p] in the payload of its request. *)
Theorem secret_prefix (st : State) (s : Session) (p : string)
    (email username code : pyval) :
  self_dict st !! "session" = Some (ASession s) ->
  (exists req d,
      issued (register email (PStr p) username code) st = [req] /\
      data req = Some (VDict d) /\
      dict_get "secret" d = Some (VStr ("0 " ++ p))) /\
  (exists req d,
      issued (reset_password email (PStr p) code) st = [req] /\
      data req = Some (VDict d) /\
      dict_get "updateSecret" d = Some (VStr ("0 " ++ p))).
Proof.
  intros H. split.
  - eexists _, _. run_method H.
    one_request s; (split; [reflexivity | split; reflexivity]).
  - eexists _, _. run_method H.
    one_request s; (split; [reflexivity | split; reflexivity]).
Qed.

Lemma secret_prefix_witness :
  (exists req d,
      issued (register (PStr "a@b.c") (PStr "hunter2") (PStr "ann") (PStr "123456"))
        demo_state = [req] /\
      data req = Some (VDict d) /\
      dict_get "secret" d = Some (VStr "0 hunter2")) /\
  (exists req d,
      issued (reset_password (PStr "a@b.c") (PStr "hunter2") (PStr "123456"))
        demo_state = [req] /\
      data req = Some (VDict d) /\
      dict_get "updateSecret" d = Some (VStr "0 hunter2")).
Proof.
  apply (secret_prefix demo_state demo_session "hunter2"
           (PStr "a@b.c") (PStr "ann") (PStr "123456")).
  vm_compute. reflexivity.
Defined.

(** ** Every method, case by case *)

(** Unfolds the body of whichever method is called and splits on
    everything the run depends on: the attributes, the file, the answer
    of the handler. *)
Ltac unfold_body :=
  unfold body, register, delete_request, delete_request_cancel, check_device,
    fetch_account, upload_image, fetch_profile, set_amino_id, fetch_wallet,
    request_security_validation, activate_email, reset_password,
    timestamp, session_handler, read_file, getattr, device_id, time, int,
    send, bind, ret, raise;
  cbn -[String.append millis lookup py_int];
  rewrite ?py_int_millis;
  cbn -[String.append millis lookup py_int].

Ltac split_run :=
  repeat (match goal with
    | |- context [match ?x with _ => _ end] =>
        lazymatch x with
        | context [match _ with _ => _ end] => fail
        | _ => destruct x eqn:?
        end
    end;
    cbn -[String.append millis lookup py_int];
    rewrite ?py_int_millis;
    cbn -[String.append millis lookup py_int]).

(** No method assigns an attribute of the instance. *)
Lemma body_keeps_self (op : operation) (locals : gmap string pyval) (st : State) :
  self_dict (snd (body op locals st)) = self_dict st.
Proof.
  destruct op; unfold_body; split_run; reflexivity.
Qed.

(** ** The payloads, method by method *)

(** C3: for every email, new password and code, [reset_password] sends
    the payload [updateSecret = "0 " + new_password],
    [emailValidationContext = {data: {code}, type: 1, identity: email,
    level: 2, deviceID}], [phoneNumberValidationContext = None] and a
    top-level [deviceID], and the payload has no top-level [timestamp]
    key.  The two device ids are two calls of [device_id()], the inner one
    first. *)
Theorem reset_password_payload (st : State) (s : Session)
    (email new_password code : string) :
  self_dict st !! "session" = Some (ASession s) ->
  exists d,
    issued (reset_password (PStr email) (PStr new_password) (PStr code)) st =
      [ {| method := "POST"; url := "/g/s/auth/reset-password";
           data := Some (VDict d); content_type := None |} ] /\
    d = [ ("updateSecret", VStr ("0 " ++ new_password));
          ("emailValidationContext", VDict
             [ ("data", VDict [ ("code", VStr code) ]);
               ("type", VInt 1);
               ("identity", VStr email);
               ("level", VInt 2);
               ("deviceID", VStr (devs st 0)) ]);
          ("phoneNumberValidationContext", VNone);
          ("deviceID", VStr (devs st 1)) ] /\
    dict_get "timestamp" d = None /\
    ~ In "timestamp" (keys d).
Proof.
  intros H. eexists. run_method H.
  one_request s; (split; [reflexivity | split; [reflexivity | split]]);
    try reflexivity; cbn; intuition discriminate.
Qed.

Lemma reset_password_payload_witness :
  exists d,
    issued (reset_password (PStr "a@b.c") (PStr "hunter2") (PStr "123456")) demo_state =
      [ {| method := "POST"; url := "/g/s/auth/reset-password";
           data := Some (VDict d); content_type := None |} ] /\
    d = [ ("updateSecret", VStr "0 hunter2");
          ("emailValidationContext", VDict
             [ ("data", VDict [ ("code", VStr "123456") ]);
               ("type", VInt 1);
               ("identity", VStr "a@b.c");
               ("level", VInt 2);
               ("deviceID", VStr "A-device") ]);
          ("phoneNumberValidationContext", VNone);
          ("deviceID", VStr "B-device") ] /\
    dict_get "timestamp" d = None /\
    ~ In "timestamp" (keys d).
Proof.
  apply (reset_password_payload demo_state demo_session "a@b.c" "hunter2" "123456").
  vm_compute. reflexivity.
Defined.

(** C5: for every device id string [d], [check_device(deviceId=d)] issues
    a [POST] to the device check endpoint (the path [/device/check] under
    the prefix [/g/s] that every url of the class carries) with exactly the
    payload [{deviceID: d, clientType: 100, timezone: -310,
    systemPushEnabled: True, timestamp: int(time() * 1000)}] and no other
    key; the timestamp is what [int] gives for the float product of the
    reading of [time()] by 1000, the time in milliseconds; no device id is
    generated. *)
Theorem check_device_payload (st : State) (s : Session) (d : string) :
  self_dict st !! "session" = Some (ASession s) ->
  issued (check_device (PStr d)) st =
    [ {| method := "POST"; url := "/g/s" ++ "/device/check";
         data := Some (VDict
           [ ("deviceID", VStr d);
             ("clientType", VInt 100);
             ("timezone", VInt (-310));
             ("systemPushEnabled", VBool true);
             ("timestamp", VInt (millis (clock st 0))) ]);
         content_type := None |} ] /\
  py_int (PrimFloat.mul (seconds (clock st 0)) 1000) = Return (millis (clock st 0)) /\
  devs (snd (check_device (PStr d) st)) = devs st.
Proof.
  intros H. split; [| split; [apply py_int_millis |]].
  - run_method H. one_request s; reflexivity.
  - run_method H. destruct (handler s _); reflexivity.
Qed.

Lemma check_device_payload_witness :
  issued (check_device (PStr "abc123")) demo_state =
    [ {| method := "POST"; url := "/g/s/device/check";
         data := Some (VDict
           [ ("deviceID", VStr "abc123");
             ("clientType", VInt 100);
             ("timezone", VInt (-310));
             ("systemPushEnabled", VBool true);
             ("timestamp", VInt 1700000000123) ]);
         content_type := None |} ] /\
  py_int (PrimFloat.mul 1700000000.123 1000) = Return 1700000000123 /\
  devs (snd (check_device (PStr "abc123") demo_state)) = devs demo_state.
Proof.
  apply (check_device_payload demo_state demo_session "abc123").
  vm_compute. reflexivity.
Defined.

(** C4: for every email, [request_security_validation] with
    [resetPassword=True] sends a payload with [level = 2] and
    [purpose = "reset-password"]; with [resetPassword=False] the keys
    [level] and [purpose] are present and hold [None]; every other field
    ([identity = email], [type = 1], [deviceID], [timestamp]) is the same
    in both payloads. *)
Theorem security_validation_levels (st : State) (s : Session) (email : string) :
  self_dict st !! "session" = Some (ASession s) ->
  exists d_reset d_plain,
    issued (request_security_validation (PStr email) (PBool true)) st =
      [ {| method := "POST"; url := "/g/s/auth/request-security-validation";
           data := Some (VDict d_reset); content_type := None |} ] /\
    issued (request_security_validation (PStr email) (PBool false)) st =
      [ {| method := "POST"; url := "/g/s/auth/request-security-validation";
           data := Some (VDict d_plain); content_type := None |} ] /\
    dict_get "level" d_reset = Some (VInt 2) /\
    dict_get "purpose" d_reset = Some (VStr "reset-password") /\
    dict_get "level" d_plain = Some VNone /\
    dict_get "purpose" d_plain = Some VNone /\
    keys d_reset = [ "identity"; "type"; "deviceID"; "level"; "purpose"; "timestamp" ] /\
    keys d_plain = keys d_reset /\
    dict_get "identity" d_plain = Some (VStr email) /\
    dict_get "type" d_plain = Some (VInt 1) /\
    dict_get "deviceID" d_plain = Some (VStr (devs st 0)) /\
    dict_get "timestamp" d_plain = Some (VInt (millis (clock st 0))) /\
    (forall k, k <> "level" -> k <> "purpose" ->
       dict_get k d_reset = dict_get k d_plain).
Proof.
  intros H. eexists _, _.
  split; [run_method H; one_request s; reflexivity |].
  split; [run_method H; one_request s; reflexivity |].
  repeat (split; [reflexivity |]).
  intros k Hlevel Hpurpose. cbn.
  destruct (String.eqb_spec k "level") as [-> | _]; [contradiction |].
  destruct (String.eqb_spec k "purpose") as [-> | _]; [contradiction |].
  reflexivity.
Qed.

Lemma security_validation_levels_witness :
  exists d_reset d_plain,
    issued (request_security_validation (PStr "a@b.c") (PBool true)) demo_state =
      [ {| method := "POST"; url := "/g/s/auth/request-security-validation";
           data := Some (VDict d_reset); content_type := None |} ] /\
    issued (request_security_validation (PStr "a@b.c") (PBool false)) demo_state =
      [ {| method := "POST"; url := "/g/s/auth/request-security-validation";
           data := Some (VDict d_plain); content_type := None |} ] /\
    dict_get "level" d_reset = Some (VInt 2) /\
    dict_get "purpose" d_reset = Some (VStr "reset-password") /\
    dict_get "level" d_plain = Some VNone /\
    dict_get "purpose" d_plain = Some VNone /\
    keys d_reset = [ "identity"; "type"; "deviceID"; "level"; "purpose"; "timestamp" ] /\
    keys d_plain = keys d_reset /\
    dict_get "identity" d_plain = Some (VStr "a@b.c") /\
    dict_get "type" d_plain = Some (VInt 1) /\
    dict_get "deviceID" d_plain = Some (VStr "A-device") /\
    dict_get "timestamp" d_plain = Some (VInt 1700000000123) /\
    (forall k, k <> "level" -> k <> "purpose" ->
       dict_get k d_reset = dict_get k d_plain).
Proof.
  apply (security_validation_levels demo_state demo_session "a@b.c").
  vm_compute. reflexivity.
Defined.

(** A field of a dict is smaller than the dict. *)
Lemma dict_get_vsize (k : string) (d : list (string * value)) (u : value) :
  dict_get k d = Some u -> (vsize u < vsize (VDict d))%nat.
Proof.
  cbn [vsize]. induction d as [| [k' v] d IH]; cbn [dict_get map list_sum snd].
  - discriminate.
  - destruct (String.eqb k k').
    + intros [= ->]. simpl. lia.
    + intros Hget. specialize (IH Hget). simpl. lia.
Qed.

Lemma dict_get_not_whole (k : string) (d : list (string * value)) (u : value) :
  dict_get k d = Some u -> u <> VDict d.
Proof.
  intros Hget ->. apply dict_get_vsize in Hget. lia.
Qed.

(** C6: for every sequence of bytes [b] held by the file [image],
    [upload_image] sends exactly the bytes [b], all [length b] of them and
    unmodified, as the body of a [POST] to the media upload endpoint with
    content type ["image/jpg"], and returns the attribute [mediaValue] of
    the response wrapper: for a decoded response that is a dict with a
    [mediaValue] field, that field and not the whole response. *)
Theorem upload_image_bytes (st : State) (s : Session) (image : string)
    (b : list Byte.byte) :
  self_dict st !! "session" = Some (ASession s) ->
  fs st (Path image) = Return b ->
  exists req body,
    issued (upload_image (PStr image)) st = [req] /\
    method req = "POST" /\
    url req = "/g/s/media/upload" /\
    content_type req = Some "image/jpg" /\
    data req = Some (VBytes body) /\
    body = b /\
    length body = length b /\
    (forall r, handler s (sent st ++ [req]) = Return r ->
       fst (upload_image (PStr image) st) = Return (Attribute SResponse "mediaValue" r)) /\
    (forall d u, dict_get "mediaValue" d = Some u ->
       attribute_value "mediaValue" (VDict d) = Some u /\
       u <> VDict d /\
       attribute_value "json" (VDict d) = Some (VDict d)).
Proof.
  intros H Hfile. eexists _, _.
  split.
  { run_method H. rewrite Hfile. cbn. one_request s; reflexivity. }
  repeat (split; [reflexivity |]). split.
  - intros r Hr. run_method H. rewrite Hfile. cbn. rewrite Hr. reflexivity.
  - intros d u Hget. cbn. rewrite Hget.
    split; [reflexivity | split; [| reflexivity]].
    eapply dict_get_not_whole, Hget.
Qed.

Lemma upload_image_bytes_witness :
  exists req body,
    issued (upload_image (PStr "cat.jpg")) demo_state = [req] /\
    method req = "POST" /\
    url req = "/g/s/media/upload" /\
    content_type req = Some "image/jpg" /\
    data req = Some (VBytes body) /\
    body = [Byte.xff; Byte.xd8; Byte.xff; Byte.xe0] /\
    length body = length [Byte.xff; Byte.xd8; Byte.xff; Byte.xe0] /\
    (forall r, handler demo_session (sent demo_state ++ [req]) = Return r ->
       fst (upload_image (PStr "cat.jpg") demo_state) =
         Return (Attribute SResponse "mediaValue" r)) /\
    (forall d u, dict_get "mediaValue" d = Some u ->
       attribute_value "mediaValue" (VDict d) = Some u /\
       u <> VDict d /\
       attribute_value "json" (VDict d) = Some (VDict d)).
Proof.
  apply (upload_image_bytes demo_state demo_session "cat.jpg"
           [Byte.xff; Byte.xd8; Byte.xff; Byte.xe0]).
  - vm_compute. reflexivity.
  - reflexivity.
Defined.

(** ** Timestamps and device ids *)

(** C2, as stated, fails: [set_amino_id] sends a [POST] whose payload has a
    [timestamp] and no [deviceID]. *)
Lemma set_amino_id_has_no_device_id :
  exists d,
    issued (set_amino_id (PStr "ann-1")) demo_state =
      [ {| method := "POST"; url := "/g/s/account/change-amino-id";
           data := Some (VDict d); content_type := None |} ] /\
    keys d = [ "aminoId"; "timestamp" ] /\
    dict_get "deviceID" d = None.
Proof.
  eexists. split; [vm_compute; reflexivity | split; reflexivity].
Qed.

(** *** Binding the arguments *)

Lemma call_unfold (op : operation) (kwargs : gmap string pyval) (st : State) :
  call op kwargs st =
    match bind_args (signature op) kwargs with
    | Return locals => body op locals st
    | Raise e => (Raise e, st)
    end.
Proof. unfold call. destruct (bind_args _ _); reflexivity. Qed.

(** A parameter without a default takes the argument of its name. *)
Lemma bind_params_required (sig : list (string * option pyval))
    (kwargs locals : gmap string pyval) (p : string) :
  bind_params sig kwargs = Return locals ->
  In (p, None) sig ->
  exists v, kwargs !! p = Some v /\ locals !! p = Some v.
Proof.
  revert locals. induction sig as [| [q dflt] sig IH]; intros locals Hbind Hin.
  - destruct Hin.
  - cbn [bind_params] in Hbind.
    destruct (from_option Some dflt (kwargs !! q)) as [v |] eqn:Hq; [| discriminate].
    destruct (bind_params sig kwargs) as [locals' | e] eqn:Hrest; [| discriminate].
    injection Hbind as <-.
    assert (Hsome : exists w, kwargs !! p = Some w).
    { destruct Hin as [[= -> ->] | Hin].
      - cbn in Hq. destruct (kwargs !! p); [eauto | discriminate].
      - destruct (IH locals' eq_refl Hin) as (w & Hw & _). eauto. }
    destruct Hsome as [w Hw]. exists w. split; [exact Hw |].
    destruct (decide (q = p)) as [-> | Hne].
    + rewrite Hw in Hq. cbn in Hq. injection Hq as ->. apply lookup_insert_eq.
    + rewrite lookup_insert_ne by exact Hne.
      destruct Hin as [[= -> ->] | Hin]; [contradiction |].
      destruct (IH locals' eq_refl Hin) as (w' & Hw' & Hl). congruence.
Qed.

(** Binding fails with a [TypeError] and nothing else. *)
Lemma bind_params_raises (sig : list (string * option pyval))
    (kwargs : gmap string pyval) (e : exn) :
  bind_params sig kwargs = Raise e -> e = TypeError.
Proof.
  induction sig as [| [q dflt] sig IH]; cbn [bind_params].
  - discriminate.
  - destruct (from_option Some dflt (kwargs !! q)); [| congruence].
    destruct (bind_params sig kwargs); [discriminate |].
    intros [= <-]. apply IH. reflexivity.
Qed.

(** A parameter without a default and without an argument makes the
    binding fail. *)
Lemma bind_params_missing (sig : list (string * option pyval))
    (kwargs : gmap string pyval) (p : string) :
  In (p, None) sig ->
  kwargs !! p = None ->
  bind_params sig kwargs = Raise TypeError.
Proof.
  intros Hin Hnone.
  destruct (bind_params sig kwargs) as [locals | e] eqn:Hbind.
  - destruct (bind_params_required _ _ _ _ Hbind Hin) as (v & Hv & _). congruence.
  - f_equal. eapply bind_params_raises, Hbind.
Qed.

Lemma bind_args_required (sig : list (string * option pyval))
    (kwargs locals : gmap string pyval) (p : string) :
  bind_args sig kwargs = Return locals ->
  In (p, None) sig ->
  exists v, kwargs !! p = Some v /\ local locals p = v.
Proof.
  unfold bind_args, local. case_bool_decide; [| discriminate].
  intros Hbind Hin.
  destruct (bind_params_required _ _ _ _ Hbind Hin) as (v & Hv & Hl).
  exists v. rewrite Hl. split; [exact Hv | reflexivity].
Qed.

Lemma bind_args_missing (sig : list (string * option pyval))
    (kwargs : gmap string pyval) (p : string) :
  In (p, None) sig ->
  kwargs !! p = None ->
  bind_args sig kwargs = Raise TypeError.
Proof.
  intros Hin Hnone. unfold bind_args. case_bool_decide; [| reflexivity].
  eapply bind_params_missing; eassumption.
Qed.

Lemma bind_args_raises (sig : list (string * option pyval))
    (kwargs : gmap string pyval) (e : exn) :
  bind_args sig kwargs = Raise e -> e = TypeError.
Proof.
  unfold bind_args. case_bool_decide; [apply bind_params_raises | congruence].
Qed.

(** *** What the POST methods attach *)

(** Brings a hypothesis on the requests issued by a body to the request
    itself, in every case of the run. *)
Ltac issued_cases :=
  unfold issued; unfold_body; split_run;
  rewrite ?drop_log, ?drop_log_nil;
  intros Hissued; try discriminate Hissued;
  injection Hissued as <-.

Lemma body_post_fields (op : operation) (locals : gmap string pyval)
    (st : State) (req : Request) :
  issued (body op locals) st = [req] ->
  is_post op = true ->
  method req = "POST" /\
  (op = op_upload_image -> exists bs, data req = Some (VBytes bs)) /\
  (op <> op_upload_image ->
   exists d, data req = Some (VDict d) /\
     (op <> op_reset_password ->
        dict_get "timestamp" d = Some (VInt (millis (clock st 0)))) /\
     (op = op_reset_password -> dict_get "timestamp" d = None) /\
     (op = op_set_amino_id ->
        d = [ ("aminoId", val (local locals "aminoId"));
              ("timestamp", VInt (millis (clock st 0))) ] /\
        dict_get "deviceID" d = None) /\
     (op = op_check_device ->
        dict_get "deviceID" d = Some (val (local locals "deviceId")) /\
        forall m, devs (snd (body op locals st)) m = devs st m) /\
     (op <> op_set_amino_id -> op <> op_check_device ->
        exists n, dict_get "deviceID" d = Some (VStr (devs st n)) /\
          forall m, devs (snd (body op locals st)) m = devs st (S n + m))).
Proof.
  intros Hissued Hpost. revert Hissued.
  destruct op; try discriminate Hpost; clear Hpost.
  all: issued_cases.
  all: (split; [reflexivity |]).
  all: (split; [intros Hop; try discriminate Hop; eexists; reflexivity |]).
  all: intros Hop; try congruence; clear Hop.
  all: eexists; split; [reflexivity |].
  all: repeat split; intros; try congruence; try reflexivity.
  all: try (exists 0%nat; split; [reflexivity | intros; reflexivity]).
  all: try (exists 1%nat; split; [reflexivity | intros; reflexivity]).
Qed.

(** The three methods that only read send a [GET], the others a [POST]. *)
Lemma body_method (op : operation) (locals : gmap string pyval)
    (st : State) (req : Request) :
  issued (body op locals) st = [req] ->
  method req = if is_post op then "POST" else "GET".
Proof.
  destruct op; issued_cases; reflexivity.
Qed.

Lemma issued_call (op : operation) (kwargs : gmap string pyval) (st : State) :
  issued (call op kwargs) st =
    match bind_args (signature op) kwargs with
    | Return locals => issued (body op locals) st
    | Raise _ => []
    end.
Proof.
  unfold issued. rewrite call_unfold.
  destruct (bind_args _ _); [reflexivity | apply drop_log_nil].
Qed.

(** C2, amended: a call that sends a [POST] is a call of one of the nine
    methods other than [fetch_account], [fetch_profile] and
    [fetch_wallet].  Each of them that sends a JSON payload attaches
    [timestamp = int(time() * 1000)], the time in milliseconds (what [int]
    gives for the float product of the reading of [time()] by 1000),
    except [reset_password], whose payload has no top-level [timestamp];
    it attaches a [deviceID] that [device_id()] generated during the call
    (the last one generated, where the call generates two), except
    [check_device], which attaches the device id of the caller and
    generates none, and [set_amino_id], whose payload is [aminoId] and
    [timestamp] and nothing else, for every argument.  [upload_image]
    sends raw bytes. *)
Theorem post_fields (op : operation) (kwargs : gmap string pyval)
    (st : State) (req : Request) :
  issued (call op kwargs) st = [req] ->
  method req = "POST" ->
  is_post op = true /\
  (op = op_upload_image -> exists bs, data req = Some (VBytes bs)) /\
  (op <> op_upload_image ->
   exists d, data req = Some (VDict d) /\
     (op <> op_reset_password ->
        dict_get "timestamp" d = Some (VInt (millis (clock st 0))) /\
        py_int (PrimFloat.mul (seconds (clock st 0)) 1000) =
          Return (millis (clock st 0))) /\
     (op = op_reset_password -> dict_get "timestamp" d = None) /\
     (op = op_set_amino_id ->
        exists v, kwargs !! "aminoId" = Some v /\
          d = [ ("aminoId", val v);
                ("timestamp", VInt (millis (clock st 0))) ] /\
          dict_get "deviceID" d = None) /\
     (op = op_check_device ->
        exists v, kwargs !! "deviceId" = Some v /\
          dict_get "deviceID" d = Some (val v) /\
          forall m, devs (snd (call op kwargs st)) m = devs st m) /\
     (op <> op_set_amino_id -> op <> op_check_device ->
        exists n, dict_get "deviceID" d = Some (VStr (devs st n)) /\
          forall m, devs (snd (call op kwargs st)) m = devs st (S n + m))).
Proof.
  intros Hissued Hmethod. rewrite issued_call in Hissued. rewrite call_unfold.
  destruct (bind_args (signature op) kwargs) as [locals | e] eqn:Hbind;
    [| discriminate Hissued].
  assert (Hpost : is_post op = true).
  { rewrite (body_method op locals st req Hissued) in Hmethod.
    destruct (is_post op); [reflexivity | discriminate Hmethod]. }
  destruct (body_post_fields op locals st req Hissued Hpost)
    as (_ & Hraw & Hjson).
  split; [exact Hpost | split; [exact Hraw |]].
  intros Hop. destruct (Hjson Hop) as (d & Hd & Hts & Hnots & Hamino & Hcheck & Hdev).
  exists d. split; [exact Hd |].
  split; [intros Hreset; split; [exact (Hts Hreset) | apply py_int_millis] |].
  split; [exact Hnots |].
  split; [| split; [| exact Hdev]].
  - intros ->. destruct (Hamino eq_refl) as [Hpayload Hnodev].
    destruct (bind_args_required _ _ _ "aminoId" Hbind) as (v & Hv & Hl).
    { cbn. auto. }
    exists v. subst v. split; [exact Hv | split; [exact Hpayload | exact Hnodev]].
  - intros ->. destruct (Hcheck eq_refl) as [Hget Hdevs].
    destruct (bind_args_required _ _ _ "deviceId" Hbind) as (v & Hv & Hl).
    { cbn. auto. }
    exists v. subst v. split; [exact Hv | split; [exact Hget | exact Hdevs]].
Qed.

Lemma post_fields_witness :
  (exists req d,
      issued (call op_register
                {[ "email" := PStr "a@b.c"; "password" := PStr "hunter2";
                   "username" := PStr "ann"; "verificationCode" := PStr "123456" ]})
        demo_state = [req] /\
      data req = Some (VDict d) /\
      dict_get "timestamp" d = Some (VInt 1700000000123) /\
      dict_get "deviceID" d = Some (VStr "A-device")) /\
  (exists req d,
      issued (call op_reset_password
                {[ "email" := PStr "a@b.c"; "new_password" := PStr "hunter2";
                   "code" := PStr "123456" ]})
        demo_state = [req] /\
      data req = Some (VDict d) /\
      dict_get "timestamp" d = None /\
      dict_get "deviceID" d = Some (VStr "B-device")) /\
  (exists req d,
      issued (call op_check_device {[ "deviceId" := PStr "abc123" ]}) demo_state = [req] /\
      data req = Some (VDict d) /\
      dict_get "timestamp" d = Some (VInt 1700000000123) /\
      dict_get "deviceID" d = Some (VStr "abc123")) /\
  (exists req,
      issued (call op_set_amino_id {[ "aminoId" := PStr "ann-1" ]}) demo_state = [req] /\
      data req = Some (VDict [ ("aminoId", VStr "ann-1");
                               ("timestamp", VInt 1700000000123) ])).
Proof.
  split; [| split; [| split]].
  - eexists _, _. split; [vm_compute; reflexivity |]. split; [reflexivity |].
    match goal with |- dict_get _ ?d = _ /\ _ =>
      destruct (post_fields op_register
                  {[ "email" := PStr "a@b.c"; "password" := PStr "hunter2";
                     "username" := PStr "ann"; "verificationCode" := PStr "123456" ]}
                  demo_state
                  {| method := "POST"; url := "/g/s/auth/register";
                     data := Some (VDict d); content_type := None |})
        as (_ & _ & Hjson); [vm_compute; reflexivity | reflexivity |]
    end.
    destruct Hjson as (d' & [= <-] & Hts & _ & _ & _ & Hdev); [discriminate |].
    split; [apply Hts; discriminate |].
    destruct Hdev as (n & Hn & _); [discriminate | discriminate |].
    reflexivity.
  - eexists _, _. split; [vm_compute; reflexivity |]. split; [reflexivity |].
    match goal with |- dict_get _ ?d = _ /\ _ =>
      destruct (post_fields op_reset_password
                  {[ "email" := PStr "a@b.c"; "new_password" := PStr "hunter2";
                     "code" := PStr "123456" ]}
                  demo_state
                  {| method := "POST"; url := "/g/s/auth/reset-password";
                     data := Some (VDict d); content_type := None |})
        as (_ & _ & Hjson); [vm_compute; reflexivity | reflexivity |]
    end.
    destruct Hjson as (d' & [= <-] & _ & Hnots & _); [discriminate |].
    split; [apply Hnots; reflexivity | reflexivity].
  - eexists _, _. split; [vm_compute; reflexivity |]. split; [reflexivity |].
    match goal with |- dict_get _ ?d = _ /\ _ =>
      destruct (post_fields op_check_device {[ "deviceId" := PStr "abc123" ]}
                  demo_state
                  {| method := "POST"; url := "/g/s/device/check";
                     data := Some (VDict d); content_type := None |})
        as (_ & _ & Hjson); [vm_compute; reflexivity | reflexivity |]
    end.
    destruct Hjson as (d' & [= <-] & Hts & _ & _ & Hcheck & _); [discriminate |].
    split; [apply Hts; discriminate |].
    destruct (Hcheck eq_refl) as (v & Hv & Hget & _).
    vm_compute in Hv. injection Hv as <-. exact Hget.
  - eexists. split; [vm_compute; reflexivity |].
    destruct (post_fields op_set_amino_id {[ "aminoId" := PStr "ann-1" ]}
                demo_state
                {| method := "POST"; url := "/g/s/account/change-amino-id";
                   data := Some (VDict [ ("aminoId", VStr "ann-1");
                                         ("timestamp", VInt 1700000000123) ]);
                   content_type := None |})
      as (_ & _ & Hjson); [vm_compute; reflexivity | reflexivity |].
    reflexivity.
Defined.

(** ** Results and errors *)

(** A run of a body either fails before anything is sent, with the state
    as it was, or sends one request and hands back what the handler gives:
    its response in a wrapper, or its exception as it is. *)
Lemma body_outcome (op : operation) (locals : gmap string pyval) (st : State) :
  (exists e,
      body op locals st = (Raise e, st) /\
      ((exists name, e = AttributeError name) \/
       (op = op_upload_image /\
        (e = TypeError \/ exists f, fs st f = Raise e))))
  \/
  (exists s req,
      self_dict st !! "session" = Some (ASession s) /\
      sent (snd (body op locals st)) = sent st ++ [req] /\
      match handler s (sent st ++ [req]) with
      | Return r =>
          exists res, fst (body op locals st) = Return res /\
            ((exists cls, res = Wrapped cls r) \/
             (exists cls name, res = Attribute cls name r))
      | Raise e => fst (body op locals st) = Raise e
      end).
Proof.
  destruct op; unfold_body; split_run.
  all: first
    [ left; eexists; split; [destruct st; reflexivity |]; solve [eauto 8]
    | right; eexists _, _; split; [reflexivity |]; split; [reflexivity |];
      match goal with H : handler _ _ = _ |- _ => rewrite H end;
      solve [eauto 8] ].
Qed.

(** C7, as stated, fails: [upload_image] on a file that cannot be opened
    raises the error of the operating system and sends nothing, and
    [fetch_profile] on an instance without [userId] raises an
    [AttributeError]; neither is a result, a [TransportError], an
    [ApiError] or a [ValidationError]. *)
Lemma errors_outside_the_three_kinds :
  fst (call op_upload_image {[ "image" := PStr "missing.jpg" ]} demo_state) =
    Raise OSError /\
  issued (call op_upload_image {[ "image" := PStr "missing.jpg" ]}) demo_state = [] /\
  fst (call op_fetch_profile ∅ demo_state) = Raise (AttributeError "userId") /\
  issued (call op_fetch_profile ∅) demo_state = [].
Proof.
  repeat split; vm_compute; reflexivity.
Qed.

(** A call of a method fails before anything is sent, or sends one request
    and hands back what the handler gives. *)
Lemma call_cases (op : operation) (kwargs : gmap string pyval) (st : State) :
  (exists e,
      call op kwargs st = (Raise e, st) /\
      (e = TypeError \/
       (exists name, e = AttributeError name) \/
       (op = op_upload_image /\ exists f, fs st f = Raise e)))
  \/
  (exists s req,
      self_dict st !! "session" = Some (ASession s) /\
      issued (call op kwargs) st = [req] /\
      match handler s (sent st ++ [req]) with
      | Return r =>
          exists res, fst (call op kwargs st) = Return res /\
            ((exists cls, res = Wrapped cls r) \/
             (exists cls name, res = Attribute cls name r))
      | Raise e => fst (call op kwargs st) = Raise e
      end).
Proof.
  rewrite issued_call, call_unfold.
  destruct (bind_args (signature op) kwargs) as [locals | e] eqn:Hbind.
  - destruct (body_outcome op locals st)
      as [(e & Hrun & Hkind) | (s & req & Hs & Hsent & Hout)].
    + left. exists e. split; [exact Hrun |].
      destruct Hkind as [Hattr | (Hop & [-> | Hfile])]; auto.
    + right. exists s, req. split; [exact Hs |]. split; [| exact Hout].
      unfold issued. rewrite Hsent. apply drop_log.
  - left. exists e. split; [reflexivity |].
    left. eapply bind_args_raises, Hbind.
Qed.

(** C7, amended: a call of any method either fails before anything is
    sent, leaving the state as it was, with a [TypeError] (the arguments do
    not fit the parameters, or [open(None)]), an [AttributeError] (an
    attribute of the instance is missing) or, in [upload_image], the error
    of opening or reading the file; or it sends one request and hands back
    what the handler gives: its response in a wrapper, or its exception
    unchanged.  With the handler of the specification, a transport failure
    then reaches the caller as [TransportError], and a response with status
    400 or more, or with the error envelope in its body, as an [ApiError]
    with the code and the message of the body, never as a result. *)
Theorem call_outcome (op : operation) (kwargs : gmap string pyval) (st : State) :
  ((exists e,
      call op kwargs st = (Raise e, st) /\
      (e = TypeError \/
       (exists name, e = AttributeError name) \/
       (op = op_upload_image /\ exists f, fs st f = Raise e)))
   \/
   (exists s req,
      self_dict st !! "session" = Some (ASession s) /\
      issued (call op kwargs) st = [req] /\
      match handler s (sent st ++ [req]) with
      | Return r =>
          exists res, fst (call op kwargs st) = Return res /\
            ((exists cls, res = Wrapped cls r) \/
             (exists cls name, res = Attribute cls name r))
      | Raise e => fst (call op kwargs st) = Raise e
      end))
  /\
  (forall t req,
      self_dict st !! "session" = Some (ASession (spec_session t)) ->
      issued (call op kwargs) st = [req] ->
      match transport_send t (sent st ++ [req]) with
      | None => fst (call op kwargs st) = Raise TransportError
      | Some resp =>
          if (400 <=? status resp)%Z || has_envelope t (json resp)
          then fst (call op kwargs st) =
                 Raise (ApiError (error_code t (json resp))
                                 (error_message t (json resp)))
          else exists res, fst (call op kwargs st) = Return res
      end).
Proof.
  split; [apply call_cases |].
  intros t req Hsession Hissued.
  destruct (call_cases op kwargs st)
    as [(e & Hrun & _) | (s & req' & Hs & Hissued' & Hout)].
  - unfold issued in Hissued. rewrite Hrun in Hissued. cbn in Hissued.
    rewrite drop_log_nil in Hissued. discriminate Hissued.
  - rewrite Hs in Hsession. injection Hsession as ->.
    rewrite Hissued in Hissued'. injection Hissued' as <-.
    cbn [spec_session handler] in Hout. unfold spec_handler in Hout.
    destruct (transport_send t (sent st ++ [req])) as [resp |]; [| exact Hout].
    destruct ((400 <=? status resp)%Z || has_envelope t (json resp));
      [exact Hout |].
    destruct Hout as (res & Hres & _). exists res. exact Hres.
Qed.

Lemma call_outcome_witness :
  fst (call op_set_amino_id {[ "aminoId" := PStr "ann-1" ]} refused_state) =
    Raise (ApiError 110 "Action not allowed.").
Proof.
  exact (proj2 (call_outcome op_set_amino_id {[ "aminoId" := PStr "ann-1" ]}
                  refused_state)
           demo_transport
           {| method := "POST"; url := "/g/s/account/change-amino-id";
              data := Some (VDict [ ("aminoId", VStr "ann-1");
                                    ("timestamp", VInt 1700000000123) ]);
              content_type := None |}
           ltac:(vm_compute; reflexivity)
           ltac:(vm_compute; reflexivity)).
Defined.

(** ** No validation of the arguments *)

(** Binding succeeds as soon as every keyword names a parameter and every
    parameter without a default has an argument, whatever the arguments
    are. *)
Lemma bind_params_total (sig : list (string * option pyval))
    (kwargs : gmap string pyval) :
  (forall p, In (p, None) sig -> is_Some (kwargs !! p)) ->
  exists locals, bind_params sig kwargs = Return locals.
Proof.
  induction sig as [| [q dflt] sig IH]; intros Hreq; cbn [bind_params].
  - eauto.
  - destruct IH as [locals Hlocals].
    { intros p Hin. apply Hreq. right. exact Hin. }
    rewrite Hlocals.
    destruct dflt as [d |].
    + destruct (kwargs !! q); cbn; eauto.
    + destruct (Hreq q) as [v Hv]; [left; reflexivity |].
      rewrite Hv. cbn. eauto.
Qed.

Lemma bind_args_total (sig : list (string * option pyval))
    (kwargs : gmap string pyval) :
  dom kwargs ⊆ list_to_set (map fst sig) ->
  (forall p, In (p, None) sig -> is_Some (kwargs !! p)) ->
  exists locals, bind_args sig kwargs = Return locals.
Proof.
  intros Hdom Hreq. unfold bind_args.
  rewrite bool_decide_eq_true_2 by exact Hdom.
  apply bind_params_total, Hreq.
Qed.

(** The keyword arguments of a call of [register]. *)
Lemma register_binds (email password username code : pyval) :
  exists locals,
    bind_args (signature op_register)
      {[ "email" := email; "password" := password; "username" := username;
         "verificationCode" := code ]} = Return locals /\
    local locals "email" = email /\
    local locals "password" = password /\
    local locals "username" = username /\
    local locals "verificationCode" = code.
Proof.
  destruct (bind_args_total (signature op_register)
              {[ "email" := email; "password" := password; "username" := username;
                 "verificationCode" := code ]}) as [locals Hbind].
  { cbn. set_solver. }
  { intros p Hin. cbn in Hin.
    destruct Hin as [[= <-] | [[= <-] | [[= <-] | [[= <-] | []]]]];
      vm_compute; eauto. }
  exists locals. split; [exact Hbind |].
  repeat split.
  all: match goal with |- local _ ?p = _ =>
         destruct (bind_args_required _ _ _ p Hbind) as (v & Hv & ->);
           [cbn; tauto | vm_compute in Hv; congruence]
       end.
Qed.

(** C8, as stated, fails: [register] called with [verificationCode=None]
    raises nothing of its own; it builds the payload with [code: None] and
    sends the request.  Called without the keyword at all, it raises a
    [TypeError], not a [ValidationError]. *)
Lemma register_without_code_is_sent :
  let kwargs : gmap string pyval :=
    {[ "email" := PStr "a@b.c"; "password" := PStr "hunter2";
       "username" := PStr "ann"; "verificationCode" := PNone ]} in
  (exists req d r,
      issued (call op_register kwargs) demo_state = [req] /\
      data req = Some (VDict d) /\
      dict_get "validationContext" d =
        Some (VDict [ ("data", VDict [ ("code", VNone) ]);
                      ("type", VInt 1);
                      ("identity", VStr "a@b.c") ]) /\
      fst (call op_register kwargs demo_state) = Return (Wrapped Authenticate r)) /\
  fst (call op_register
         {[ "email" := PStr "a@b.c"; "password" := PStr "hunter2";
            "username" := PStr "ann" ]} demo_state) = Raise TypeError.
Proof.
  split; [eexists _, _, _; repeat split |]; vm_compute; reflexivity.
Qed.

Lemma read_file_run (f : pyval) (st : State) (bs : list Byte.byte) :
  fst (read_file f st) = Return bs -> read_file f st = (Return bs, st).
Proof.
  destruct f as [| b | p]; cbn; intros H; [discriminate H | |]; rewrite H; reflexivity.
Qed.

(** With a session on the instance, every method but [fetch_profile] gets
    as far as its request. *)
Lemma body_reaches_handler (op : operation) (locals : gmap string pyval)
    (st : State) (s : Session) :
  self_dict st !! "session" = Some (ASession s) ->
  op <> op_fetch_profile ->
  (op = op_upload_image ->
   exists bs, fst (read_file (local locals "image") st) = Return bs) ->
  exists req,
    sent (snd (body op locals st)) = sent st ++ [req] /\
    forall r, handler s (sent st ++ [req]) = Return r ->
      exists res, fst (body op locals st) = Return res.
Proof.
  intros Hsession Hop Hfile.
  destruct op; try congruence; unfold body.
  all: try (run_method Hsession; eexists; split;
            [ destruct (handler s _); reflexivity
            | intros r Hr; rewrite Hr; eauto ]).
  destruct (Hfile eq_refl) as [bs Hbs]. apply read_file_run in Hbs.
  unfold upload_image.
  rewrite (bind_run _ _ _ _ _ (session_handler_run _ _ Hsession)).
  rewrite (bind_run _ _ _ _ _ Hbs). cbn.
  eexists; split;
    [ destruct (handler s _); reflexivity
    | intros r Hr; rewrite Hr; eauto ].
Qed.

(** A call that binds its arguments, on an instance with a session, of a
    method other than [fetch_profile] and [upload_image], sends its request
    whatever the arguments are. *)
Lemma call_sends (op : operation) (kwargs locals : gmap string pyval)
    (st : State) (s : Session) :
  self_dict st !! "session" = Some (ASession s) ->
  bind_args (signature op) kwargs = Return locals ->
  op <> op_fetch_profile ->
  op <> op_upload_image ->
  exists req,
    issued (call op kwargs) st = [req] /\
    match handler s (sent st ++ [req]) with
    | Return r => exists res, fst (call op kwargs st) = Return res
    | Raise e => fst (call op kwargs st) = Raise e
    end.
Proof.
  intros Hsession Hbind Hprofile Hupload.
  rewrite issued_call, call_unfold, Hbind.
  destruct (body_reaches_handler op locals st s Hsession Hprofile)
    as (req & Hsent & _); [congruence |].
  exists req. split; [unfold issued; rewrite Hsent; apply drop_log |].
  destruct (body_outcome op locals st)
    as [(e & Hrun & _) | (s' & req' & Hs & Hsent' & Hout)].
  - rewrite Hrun in Hsent. cbn in Hsent.
    apply (f_equal length) in Hsent. rewrite length_app in Hsent.
    cbn in Hsent. lia.
  - rewrite Hs in Hsession. injection Hsession as ->.
    rewrite Hsent in Hsent'. apply app_inv_head in Hsent'. injection Hsent' as <-.
    destruct (handler s (sent st ++ [req])) as [r | e]; [| exact Hout].
    destruct Hout as (res & Hres & _). eauto.
Qed.

(** C8, amended: the methods do not validate their arguments and raise no
    [ValidationError] of their own.  A call that leaves out a parameter
    without a default is refused when the arguments are bound, with a
    [TypeError], before the body runs: no payload is built and nothing is
    sent.  A call whose arguments are bound is not refused for what they
    hold: every method with required parameters other than [upload_image]
    sends its request whatever the arguments are, [None] included (so
    [register] sends the code it is given, [None] as null, in
    [validationContext], and the password in the secret as [str] formats
    it); [upload_image] with [image=None] raises the [TypeError] of
    [open] and sends nothing.  A [ValidationError] reaches the caller only
    if the handler or the opening of the file raises it. *)
Theorem no_validation :
  (forall (op : operation) (kwargs : gmap string pyval) (st : State) (p : string),
      In (p, None) (signature op) ->
      kwargs !! p = None ->
      call op kwargs st = (Raise TypeError, st)) /\
  (forall (op : operation) (kwargs locals : gmap string pyval) (st : State)
          (s : Session),
      self_dict st !! "session" = Some (ASession s) ->
      bind_args (signature op) kwargs = Return locals ->
      op <> op_fetch_profile ->
      op <> op_upload_image ->
      exists req,
        issued (call op kwargs) st = [req] /\
        match handler s (sent st ++ [req]) with
        | Return r => exists res, fst (call op kwargs st) = Return res
        | Raise e => fst (call op kwargs st) = Raise e
        end) /\
  (forall (st : State) (s : Session) (email password username code : pyval),
      self_dict st !! "session" = Some (ASession s) ->
      let kwargs : gmap string pyval :=
        {[ "email" := email; "password" := password; "username" := username;
           "verificationCode" := code ]} in
      exists req d,
        issued (call op_register kwargs) st = [req] /\
        data req = Some (VDict d) /\
        dict_get "validationContext" d =
          Some (VDict [ ("data", VDict [ ("code", val code) ]);
                        ("type", VInt 1);
                        ("identity", val email) ]) /\
        dict_get "secret" d = Some (VStr ("0 " ++ py_format password)) /\
        fst (call op_register kwargs st) =
          match handler s (sent st ++ [req]) with
          | Return r => Return (Wrapped Authenticate r)
          | Raise e => Raise e
          end) /\
  (forall (st : State) (s : Session),
      self_dict st !! "session" = Some (ASession s) ->
      call op_upload_image {[ "image" := PNone ]} st = (Raise TypeError, st)) /\
  (forall (op : operation) (kwargs : gmap string pyval) (st : State),
      fst (call op kwargs st) = Raise ValidationError ->
      (exists f, fs st f = Raise ValidationError) \/
      (exists s req,
          self_dict st !! "session" = Some (ASession s) /\
          handler s (sent st ++ [req]) = Raise ValidationError)).
Proof.
  split; [| split; [| split; [| split]]].
  - intros op kwargs st p Hin Hnone. rewrite call_unfold.
    rewrite (bind_args_missing _ _ _ Hin Hnone). reflexivity.
  - intros op kwargs locals st s. apply call_sends.
  - intros st s email password username code Hsession kwargs.
    destruct (register_binds email password username code)
      as (locals & Hbind & He & Hp & Hu & Hc).
    subst kwargs. rewrite issued_call, call_unfold, Hbind.
    cbn [body]. rewrite He, Hp, Hu, Hc.
    eexists _, _. split.
    { run_method Hsession. one_request s; reflexivity. }
    split; [reflexivity | split; [reflexivity | split; [reflexivity |]]].
    run_method Hsession. destruct (handler s _); reflexivity.
  - intros st s Hsession. rewrite call_unfold.
    destruct (bind_args_total (signature op_upload_image) {[ "image" := PNone ]})
      as [locals Hbind].
    { cbn. set_solver. }
    { intros p [[= <-] | []]. vm_compute. eauto. }
    rewrite Hbind. cbn [body].
    destruct (bind_args_required _ _ _ "image" Hbind) as (v & Hv & ->);
      [cbn; tauto |].
    vm_compute in Hv. injection Hv as <-.
    run_method Hsession. reflexivity.
  - intros op kwargs st Hraise.
    destruct (call_cases op kwargs st)
      as [(e & Hrun & Hkind) | (s & req & Hs & _ & Hout)].
    + rewrite Hrun in Hraise. injection Hraise as ->.
      destruct Hkind as [Hty | [[name Hattr] | (_ & f & Hfile)]];
        [discriminate Hty | discriminate Hattr | left; eauto].
    + right. exists s, req. split; [exact Hs |].
      destruct (handler s (sent st ++ [req])) as [r | e].
      * destruct Hout as (res & Hres & _). congruence.
      * congruence.
Qed.

Lemma no_validation_witness :
  call op_register
    {[ "email" := PStr "a@b.c"; "password" := PStr "hunter2";
       "username" := PStr "ann" ]} demo_state = (Raise TypeError, demo_state).
Proof.
  apply (proj1 no_validation op_register _ demo_state "verificationCode").
  - cbn. tauto.
  - vm_compute. reflexivity.
Defined.

(** ** What a call leaves behind *)

Lemma body_keeps_fs (op : operation) (locals : gmap string pyval) (st : State) :
  fs (snd (body op locals st)) = fs st.
Proof.
  destruct op; unfold_body; split_run; reflexivity.
Qed.

(** A call only moves the device ids and the clock forward. *)
Lemma body_advances (op : operation) (locals : gmap string pyval) (st : State) :
  (exists k, forall n, devs (snd (body op locals st)) n = devs st (k + n)%nat) /\
  (exists k, forall n, clock (snd (body op locals st)) n = clock st (k + n)%nat).
Proof.
  destruct op; unfold_body; split_run.
  all: split;
    first [ exists 0%nat; intros; reflexivity
          | exists 1%nat; intros; reflexivity
          | exists 2%nat; intros; reflexivity ].
Qed.

(** The requests of a body depend on the attributes, the files, the device
    ids and the clock, and on nothing else in the state. *)
Lemma body_issued_ext (op : operation) (locals : gmap string pyval) (st1 st2 : State) :
  self_dict st1 = self_dict st2 ->
  fs st1 = fs st2 ->
  (forall n, devs st1 n = devs st2 n) ->
  (forall n, clock st1 n = clock st2 n) ->
  issued (body op locals) st1 = issued (body op locals) st2.
Proof.
  destruct st1 as [self1 devs1 clock1 fs1 sent1], st2 as [self2 devs2 clock2 fs2 sent2].
  cbn [self_dict fs devs clock]. intros -> -> Hdevs Hclock.
  unfold issued.
  destruct op; unfold_body; split_run;
    rewrite ?drop_log, ?drop_log_nil,
      ?(Hdevs 0%nat), ?(Hdevs 1%nat), ?(Hclock 0%nat);
    reflexivity.
Qed.

Lemma call_keeps_self (op : operation) (kwargs : gmap string pyval) (st : State) :
  self_dict (snd (call op kwargs st)) = self_dict st.
Proof.
  rewrite call_unfold. destruct (bind_args _ _); [apply body_keeps_self | reflexivity].
Qed.

Lemma call_keeps_fs (op : operation) (kwargs : gmap string pyval) (st : State) :
  fs (snd (call op kwargs st)) = fs st.
Proof.
  rewrite call_unfold. destruct (bind_args _ _); [apply body_keeps_fs | reflexivity].
Qed.

Lemma call_advances (op : operation) (kwargs : gmap string pyval) (st : State) :
  (exists k, forall n, devs (snd (call op kwargs st)) n = devs st (k + n)%nat) /\
  (exists k, forall n, clock (snd (call op kwargs st)) n = clock st (k + n)%nat).
Proof.
  rewrite call_unfold. destruct (bind_args _ _); [apply body_advances |].
  split; exists 0%nat; intros; reflexivity.
Qed.

Lemma call_issued_ext (op : operation) (kwargs : gmap string pyval) (st1 st2 : State) :
  self_dict st1 = self_dict st2 ->
  fs st1 = fs st2 ->
  (forall n, devs st1 n = devs st2 n) ->
  (forall n, clock st1 n = clock st2 n) ->
  issued (call op kwargs) st1 = issued (call op kwargs) st2.
Proof.
  intros Hself Hfs Hdevs Hclock. rewrite !issued_call.
  destruct (bind_args _ _); [apply body_issued_ext; assumption | reflexivity].
Qed.

(** The same, over a sequence of calls, by induction on the sequence. *)
Lemma run_calls_keeps_self (calls : list (operation * gmap string pyval)) (st : State) :
  self_dict (run_calls calls st) = self_dict st.
Proof.
  revert st. induction calls as [| [op kwargs] calls IH]; intros st; cbn [run_calls].
  - reflexivity.
  - rewrite IH. apply call_keeps_self.
Qed.

Lemma run_calls_keeps_fs (calls : list (operation * gmap string pyval)) (st : State) :
  fs (run_calls calls st) = fs st.
Proof.
  revert st. induction calls as [| [op kwargs] calls IH]; intros st; cbn [run_calls].
  - reflexivity.
  - rewrite IH. apply call_keeps_fs.
Qed.

Lemma run_calls_advances (calls : list (operation * gmap string pyval)) (st : State) :
  (exists k, forall n, devs (run_calls calls st) n = devs st (k + n)%nat) /\
  (exists k, forall n, clock (run_calls calls st) n = clock st (k + n)%nat).
Proof.
  revert st. induction calls as [| [op kwargs] calls IH]; intros st; cbn [run_calls].
  - split; exists 0%nat; intros; reflexivity.
  - destruct (IH (snd (call op kwargs st))) as [[k1 Hd1] [k2 Hc1]].
    destruct (call_advances op kwargs st) as [[j1 Hd0] [j2 Hc0]].
    split.
    + exists (j1 + k1)%nat. intros n. rewrite Hd1, Hd0. f_equal. lia.
    + exists (j2 + k2)%nat. intros n. rewrite Hc1, Hc0. f_equal. lia.
Qed.

(** ** Calls do not depend on earlier calls *)

(** C9: calling [fetch_account] twice, or [fetch_wallet] twice, issues two
    [GET] requests to the handler, and the answer to each call is what the
    handler gives for that request: nothing is cached.  No method assigns
    an attribute of the instance, so after any sequence of calls the
    attributes are as before; the requests of a call depend on the calls
    before it only through the device ids and the clock readings that
    those have used up, and not at all when the device id and the clock
    reading do not change from call to call. *)
Theorem calls_are_independent :
  (forall (st : State) (s : Session),
      self_dict st !! "session" = Some (ASession s) ->
      let get := {| method := "GET"; url := "/g/s/account";
                    data := None; content_type := None |} in
      let answer (log : list Request) :=
        match handler s log with
        | Return r => Return (Attribute SResponse "json" r)
        | Raise e => Raise e
        end in
      fst (fetch_account st) = answer (sent st ++ [get]) /\
      fst (fetch_account (snd (fetch_account st))) = answer ((sent st ++ [get]) ++ [get]) /\
      sent (snd (fetch_account (snd (fetch_account st)))) = (sent st ++ [get]) ++ [get]) /\
  (forall (st : State) (s : Session),
      self_dict st !! "session" = Some (ASession s) ->
      let get := {| method := "GET"; url := "/g/s/wallet";
                    data := None; content_type := None |} in
      let answer (log : list Request) :=
        match handler s log with
        | Return r => Return (Attribute Wallet "json" r)
        | Raise e => Raise e
        end in
      fst (fetch_wallet st) = answer (sent st ++ [get]) /\
      fst (fetch_wallet (snd (fetch_wallet st))) = answer ((sent st ++ [get]) ++ [get]) /\
      sent (snd (fetch_wallet (snd (fetch_wallet st)))) = (sent st ++ [get]) ++ [get]) /\
  (forall (calls : list (operation * gmap string pyval)) (st : State),
      self_dict (run_calls calls st) = self_dict st) /\
  (forall (calls : list (operation * gmap string pyval)) (op : operation)
          (kwargs : gmap string pyval) (st : State),
      issued (call op kwargs) (run_calls calls st) =
      issued (call op kwargs)
        (mkState (self_dict st) (devs (run_calls calls st))
           (clock (run_calls calls st)) (fs st) (sent st))) /\
  (forall (calls : list (operation * gmap string pyval)) (op : operation)
          (kwargs : gmap string pyval) (st : State),
      (forall n, devs st n = devs st 0%nat) ->
      (forall n, clock st n = clock st 0%nat) ->
      issued (call op kwargs) (run_calls calls st) = issued (call op kwargs) st).
Proof.
  repeat apply conj.
  - intros st s Hsession get answer. subst get answer.
    assert (Hsession' : self_dict (snd (fetch_account st)) !! "session" = Some (ASession s)).
    { rewrite <- Hsession. f_equal. apply (body_keeps_self op_fetch_account ∅). }
    assert (Hfirst : sent (snd (fetch_account st)) =
              sent st ++ [ {| method := "GET"; url := "/g/s/account";
                              data := None; content_type := None |} ]).
    { run_method Hsession. destruct (handler s _); reflexivity. }
    repeat split.
    + run_method Hsession. destruct (handler s _); reflexivity.
    + rewrite <- Hfirst. run_method Hsession'. destruct (handler s _); reflexivity.
    + rewrite <- Hfirst. run_method Hsession'. destruct (handler s _); reflexivity.
  - intros st s Hsession get answer. subst get answer.
    assert (Hsession' : self_dict (snd (fetch_wallet st)) !! "session" = Some (ASession s)).
    { rewrite <- Hsession. f_equal. apply (body_keeps_self op_fetch_wallet ∅). }
    assert (Hfirst : sent (snd (fetch_wallet st)) =
              sent st ++ [ {| method := "GET"; url := "/g/s/wallet";
                              data := None; content_type := None |} ]).
    { run_method Hsession. destruct (handler s _); reflexivity. }
    repeat split.
    + run_method Hsession. destruct (handler s _); reflexivity.
    + rewrite <- Hfirst. run_method Hsession'. destruct (handler s _); reflexivity.
    + rewrite <- Hfirst. run_method Hsession'. destruct (handler s _); reflexivity.
  - apply run_calls_keeps_self.
  - intros calls op kwargs st. apply call_issued_ext; cbn.
    + apply run_calls_keeps_self.
    + apply run_calls_keeps_fs.
    + reflexivity.
    + reflexivity.
  - intros calls op kwargs st Hdevs Hclock. apply call_issued_ext.
    + apply run_calls_keeps_self.
    + apply run_calls_keeps_fs.
    + destruct (run_calls_advances calls st) as [[k Hk] _].
      intros n. rewrite Hk, Hdevs, (Hdevs n). reflexivity.
    + destruct (run_calls_advances calls st) as [_ [k Hk]].
      intros n. rewrite Hk, Hclock, (Hclock n). reflexivity.
Qed.

Lemma calls_are_independent_witness :
  let get := {| method := "GET"; url := "/g/s/account";
                data := None; content_type := None |} in
  let seen (n : Z) :=
    Return (Attribute SResponse "json"
              (VDict [ ("api:statuscode", VInt 0); ("seen", VInt n);
                       ("mediaValue", VStr "http://media/1.jpg") ])) in
  fst (fetch_account demo_state) = seen 1 /\
  fst (fetch_account (snd (fetch_account demo_state))) = seen 2 /\
  sent (snd (fetch_account (snd (fetch_account demo_state)))) = [get; get].
Proof.
  exact (proj1 calls_are_independent demo_state demo_session
           ltac:(vm_compute; reflexivity)).
Defined.

(** ** The attribute [userId] *)

Lemma Account_attributes (session : attr) (debug : option pyval) (st : State) :
  self_dict (Account session debug st) =
    <["debug" := AVal (default (PBool false) debug)]> (<["session" := session]> ∅).
Proof. reflexivity. Qed.

(** C10: [__init__] sets the attributes [session] and [debug] and no
    other, and no method assigns an attribute, so [userId] stays unset
    through any sequence of calls.  [fetch_profile] then fails with an
    [AttributeError] and sends nothing, on any instance without [userId];
    with [userId] set from outside it sends its [GET].  Every other
    method, on an instance that [__init__] built over a session, gets as
    far as its request whenever its arguments are bound (and, for
    [upload_image], the file is read), and returns a result whenever the
    handler returns a response. *)
Theorem fetch_profile_needs_userId :
  (forall (session : attr) (debug : option pyval) (st : State),
      dom (self_dict (Account session debug st)) = {[ "session"; "debug" ]} /\
      self_dict (Account session debug st) !! "session" = Some session /\
      self_dict (Account session debug st) !! "debug" =
        Some (AVal (default (PBool false) debug)) /\
      self_dict (Account session debug st) !! "userId" = None) /\
  (forall (calls : list (operation * gmap string pyval)) (st : State),
      self_dict st !! "userId" = None ->
      self_dict (run_calls calls st) !! "userId" = None) /\
  (forall (st : State),
      self_dict st !! "userId" = None ->
      exists name, call op_fetch_profile ∅ st = (Raise (AttributeError name), st)) /\
  (forall (calls : list (operation * gmap string pyval)) (s : Session)
          (debug : option pyval) (st : State),
      let st' := run_calls calls (Account (ASession s) debug st) in
      call op_fetch_profile ∅ st' = (Raise (AttributeError "userId"), st')) /\
  (forall (st : State) (s : Session) (uid : pyval),
      self_dict st !! "session" = Some (ASession s) ->
      self_dict st !! "userId" = Some (AVal uid) ->
      issued (call op_fetch_profile ∅) st =
        [ {| method := "GET"; url := "/g/s/user-profile/" ++ py_format uid;
             data := None; content_type := None |} ]) /\
  (forall (op : operation) (kwargs locals : gmap string pyval) (s : Session)
          (debug : option pyval) (st : State),
      op <> op_fetch_profile ->
      bind_args (signature op) kwargs = Return locals ->
      (op = op_upload_image ->
       exists bs, fst (read_file (local locals "image") st) = Return bs) ->
      let st' := Account (ASession s) debug st in
      exists req,
        issued (call op kwargs) st' = [req] /\
        forall r, handler s (sent st' ++ [req]) = Return r ->
          exists res, fst (call op kwargs st') = Return res).
Proof.
  repeat apply conj.
  - intros session debug st. rewrite Account_attributes.
    split; [| split; [| split]].
    + rewrite !dom_insert_L, dom_empty_L. set_solver.
    + rewrite lookup_insert_ne by discriminate. apply lookup_insert_eq.
    + apply lookup_insert_eq.
    + rewrite !lookup_insert_ne by discriminate. apply lookup_empty.
  - intros calls st Hnone. rewrite run_calls_keeps_self. exact Hnone.
  - intros st Hnone. rewrite call_unfold.
    assert (Hbind : bind_args (signature op_fetch_profile) ∅ = Return ∅)
      by (vm_compute; reflexivity).
    rewrite Hbind. unfold_body.
    destruct (self_dict st !! "session") as [[s | v] |];
      cbn -[String.append lookup]; rewrite ?Hnone; eauto.
  - intros calls s debug st st'.
    assert (Hsession : self_dict st' !! "session" = Some (ASession s)).
    { subst st'. rewrite run_calls_keeps_self, Account_attributes.
      rewrite lookup_insert_ne by discriminate. apply lookup_insert_eq. }
    assert (Hnone : self_dict st' !! "userId" = None).
    { subst st'. rewrite run_calls_keeps_self, Account_attributes.
      rewrite !lookup_insert_ne by discriminate. apply lookup_empty. }
    rewrite call_unfold.
    assert (Hbind : bind_args (signature op_fetch_profile) ∅ = Return ∅)
      by (vm_compute; reflexivity).
    rewrite Hbind. unfold_body. rewrite Hsession. cbn -[String.append lookup].
    rewrite Hnone. reflexivity.
  - intros st s uid Hsession Huid. rewrite issued_call.
    assert (Hbind : bind_args (signature op_fetch_profile) ∅ = Return ∅)
      by (vm_compute; reflexivity).
    rewrite Hbind. unfold issued. unfold_body. rewrite Hsession.
    cbn -[String.append lookup]. rewrite Huid. cbn -[String.append].
    destruct (handler s _); cbn; apply drop_log.
  - intros op kwargs locals s debug st Hop Hbind Hfile st'.
    assert (Hsession : self_dict st' !! "session" = Some (ASession s)).
    { subst st'. rewrite Account_attributes.
      rewrite lookup_insert_ne by discriminate. apply lookup_insert_eq. }
    rewrite issued_call, call_unfold, Hbind.
    destruct (body_reaches_handler op locals st' s Hsession Hop)
      as (req & Hsent & Hres).
    { intros ->. destruct (Hfile eq_refl) as [bs Hbs]. exists bs.
      destruct (local locals "image"); exact Hbs. }
    exists req. split; [| exact Hres].
    unfold issued. rewrite Hsent. apply drop_log.
Qed.

Lemma fetch_profile_needs_userId_witness :
  let st' := run_calls [ (op_fetch_account, ∅); (op_fetch_wallet, ∅) ] demo_state in
  call op_fetch_profile ∅ st' = (Raise (AttributeError "userId"), st').
Proof.
  exact (proj1 (proj2 (proj2 (proj2 fetch_profile_needs_userId)))
           [ (op_fetch_account, ∅); (op_fetch_wallet, ∅) ]
           demo_session None demo_world).
Defined.

(** ** The prefix of the urls *)

(** Every url that the class passes to the handler is a path under the
    prefix [/g/s]. *)
Lemma url_prefix (op : operation) (locals : gmap string pyval)
    (st : State) (req : Request) :
  issued (body op locals) st = [req] ->
  exists path : string, url req = ("/g/s" ++ path)%string.
Proof.
  destruct op; issued_cases; eexists; reflexivity.
Qed.

(** * Further properties of the class *)

(** ** Failures before the request *)

(** X1: when the arguments of a call are bound, a method called on an
    instance without the attribute [session] raises [AttributeError] for
    [session], and one whose [session] is not a session object raises it
    for [handler]; in both cases nothing is sent and the state is as it
    was.  This holds for every method: [self.session.handler] is evaluated
    before any argument of the call, so before [self.userId] and before the
    file is opened. *)
Theorem no_session_no_request (op : operation) (kwargs locals : gmap string pyval)
    (st : State) :
  bind_args (signature op) kwargs = Return locals ->
  (self_dict st !! "session" = None ->
   call op kwargs st = (Raise (AttributeError "session"), st)) /\
  (forall v, self_dict st !! "session" = Some (AVal v) ->
   call op kwargs st = (Raise (AttributeError "handler"), st)).
Proof.
  intros Hbind. rewrite call_unfold, Hbind.
  split.
  - intros Hnone. destruct op; unfold_body; rewrite Hnone; reflexivity.
  - intros v Hval. destruct op; unfold_body; rewrite Hval; reflexivity.
Qed.

Lemma no_session_no_request_witness :
  call op_fetch_account ∅ demo_world = (Raise (AttributeError "session"), demo_world).
Proof.
  apply (no_session_no_request op_fetch_account ∅ ∅ demo_world).
  - vm_compute. reflexivity.
  - reflexivity.
Defined.

(** X2: [upload_image] opens the file before it calls the handler: with
    [image=None] it raises [TypeError], and when the file cannot be opened
    or read it raises that error; either way the handler is not called and
    the state is as it was. *)
Theorem upload_image_file_errors (st : State) (s : Session) :
  self_dict st !! "session" = Some (ASession s) ->
  upload_image PNone st = (Raise TypeError, st) /\
  (forall p e, fs st (Path p) = Raise e ->
     upload_image (PStr p) st = (Raise e, st)).
Proof.
  intros Hsession. split.
  - run_method Hsession. reflexivity.
  - intros p e Hfile. run_method Hsession. rewrite Hfile. reflexivity.
Qed.

Lemma upload_image_file_errors_witness :
  upload_image PNone demo_state = (Raise TypeError, demo_state) /\
  (forall p e, fs demo_state (Path p) = Raise e ->
     upload_image (PStr p) demo_state = (Raise e, demo_state)).
Proof.
  apply (upload_image_file_errors demo_state demo_session).
  vm_compute. reflexivity.
Defined.

(** ** What a call hands back and what it uses up *)

Lemma body_result (op : operation) (locals : gmap string pyval) (st : State)
    (res : result) :
  fst (body op locals st) = Return res ->
  exists s req r,
    self_dict st !! "session" = Some (ASession s) /\
    sent (snd (body op locals st)) = sent st ++ [req] /\
    handler s (sent st ++ [req]) = Return r /\
    res = match op with
          | op_register => Wrapped Authenticate r
          | op_reset_password => Wrapped ResetPassword r
          | op_fetch_wallet => Attribute Wallet "json" r
          | op_upload_image => Attribute SResponse "mediaValue" r
          | _ => Attribute SResponse "json" r
          end.
Proof.
  destruct op; unfold_body; split_run; intros Hres;
    try discriminate Hres; injection Hres as <-;
    eexists _, _, _; repeat split; eassumption.
Qed.

(** X3: a method returns only what the handler answered.  If a call
    returns a result, then the instance has a session, the call sent
    exactly one request, the handler answered it with a response [r], and
    the result is the wrapper of the method over that same [r]:
    [Authenticate(r)] for [register], [ResetPassword(r)] for
    [reset_password], [Wallet(r).json] for [fetch_wallet],
    [SResponse(r).mediaValue] for [upload_image] and [SResponse(r).json]
    for every other method. *)
Theorem result_comes_from_handler (op : operation) (kwargs : gmap string pyval)
    (st : State) (res : result) :
  fst (call op kwargs st) = Return res ->
  exists s req r,
    self_dict st !! "session" = Some (ASession s) /\
    issued (call op kwargs) st = [req] /\
    handler s (sent st ++ [req]) = Return r /\
    res = match op with
          | op_register => Wrapped Authenticate r
          | op_reset_password => Wrapped ResetPassword r
          | op_fetch_wallet => Attribute Wallet "json" r
          | op_upload_image => Attribute SResponse "mediaValue" r
          | _ => Attribute SResponse "json" r
          end.
Proof.
  rewrite issued_call, call_unfold.
  destruct (bind_args (signature op) kwargs) as [locals | e]; [| discriminate].
  intros Hres.
  destruct (body_result op locals st res Hres) as (s & req & r & Hs & Hsent & Hr & ->).
  exists s, req, r. repeat split; try assumption.
  unfold issued. rewrite Hsent. apply drop_log.
Qed.

Lemma result_comes_from_handler_witness :
  exists s req r,
    self_dict demo_state !! "session" = Some (ASession s) /\
    issued (call op_upload_image {[ "image" := PStr "cat.jpg" ]}) demo_state = [req] /\
    handler s (sent demo_state ++ [req]) = Return r /\
    Attribute SResponse "mediaValue"
      (VDict [ ("api:statuscode", VInt 0); ("seen", VInt 1);
               ("mediaValue", VStr "http://media/1.jpg") ]) =
      Attribute SResponse "mediaValue" r.
Proof.
  apply (result_comes_from_handler op_upload_image
           {[ "image" := PStr "cat.jpg" ]} demo_state).
  vm_compute. reflexivity.
Defined.

Lemma body_uses (op : operation) (locals : gmap string pyval) (st : State)
    (req : Request) :
  issued (body op locals) st = [req] ->
  (forall n,
      devs (snd (body op locals st)) n =
      devs st (match op with
               | op_register | op_delete_request | op_delete_request_cancel
               | op_request_security_validation | op_activate_email => 1
               | op_reset_password => 2
               | _ => 0
               end + n)%nat) /\
  (forall n,
      clock (snd (body op locals st)) n =
      clock st (match op with
                | op_register | op_delete_request | op_delete_request_cancel
                | op_request_security_validation | op_activate_email
                | op_check_device | op_set_amino_id => 1
                | _ => 0
                end + n)%nat).
Proof.
  destruct op; issued_cases; split; intros n; reflexivity.
Qed.

(** X4: what a call takes from [device_id()] and [time()].  A call that
    sends its request has by then called [device_id()] once and [time()]
    once in [register], [delete_request], [delete_request_cancel],
    [request_security_validation] and [activate_email]; only [time()] in
    [check_device] and [set_amino_id]; [device_id()] twice and [time()]
    never in [reset_password]; neither in [fetch_account],
    [fetch_profile], [fetch_wallet] and [upload_image].  This is so whether
    the handler then answers or raises.  A call that sends nothing leaves
    the whole state as it was. *)
Theorem collaborators_used (op : operation) (kwargs : gmap string pyval)
    (st : State) :
  (issued (call op kwargs) st = [] -> snd (call op kwargs st) = st) /\
  (forall req,
      issued (call op kwargs) st = [req] ->
      (forall n,
          devs (snd (call op kwargs st)) n =
          devs st (match op with
                   | op_register | op_delete_request | op_delete_request_cancel
                   | op_request_security_validation | op_activate_email => 1
                   | op_reset_password => 2
                   | _ => 0
                   end + n)%nat) /\
      (forall n,
          clock (snd (call op kwargs st)) n =
          clock st (match op with
                    | op_register | op_delete_request | op_delete_request_cancel
                    | op_request_security_validation | op_activate_email
                    | op_check_device | op_set_amino_id => 1
                    | _ => 0
                    end + n)%nat)).
Proof.
  split.
  - intros Hnone.
    destruct (call_cases op kwargs st)
      as [(e & Hrun & _) | (s & req & _ & Hreq & _)].
    + rewrite Hrun. reflexivity.
    + rewrite Hreq in Hnone. discriminate Hnone.
  - intros req. rewrite issued_call, call_unfold.
    destruct (bind_args (signature op) kwargs) as [locals | e]; [| discriminate].
    apply body_uses.
Qed.

Lemma body_request_shape (op : operation) (locals : gmap string pyval)
    (st : State) (req : Request) :
  issued (body op locals) st = [req] ->
  (method req = "GET" /\ data req = None /\ content_type req = None) \/
  (method req = "POST" /\ op <> op_upload_image /\
   content_type req = None /\ exists d, data req = Some (VDict d)) \/
  (method req = "POST" /\ op = op_upload_image /\
   content_type req = Some "image/jpg" /\ exists bs, data req = Some (VBytes bs)).
Proof.
  destruct op; issued_cases.
  all: first
    [ left; repeat split; reflexivity
    | right; left; repeat split; [discriminate | eexists; reflexivity]
    | right; right; repeat split; eexists; reflexivity ].
Qed.

(** X5: the shape of every request.  A [GET] passes neither [data] nor
    [content_type]; a [POST] of any method but [upload_image] passes a
    dict as [data] and no [content_type]; the [POST] of [upload_image]
    passes bytes as [data] and the content type ["image/jpg"].  No method
    sends anything else. *)
Theorem request_shape (op : operation) (kwargs : gmap string pyval)
    (st : State) (req : Request) :
  issued (call op kwargs) st = [req] ->
  (method req = "GET" /\ data req = None /\ content_type req = None) \/
  (method req = "POST" /\ op <> op_upload_image /\
   content_type req = None /\ exists d, data req = Some (VDict d)) \/
  (method req = "POST" /\ op = op_upload_image /\
   content_type req = Some "image/jpg" /\ exists bs, data req = Some (VBytes bs)).
Proof.
  rewrite issued_call.
  destruct (bind_args (signature op) kwargs) as [locals | e]; [| discriminate].
  apply body_request_shape.
Qed.

Lemma request_shape_witness :
  let req := {| method := "GET"; url := "/g/s/account";
                data := None; content_type := None |} in
  (method req = "GET" /\ data req = None /\ content_type req = None) \/
  (method req = "POST" /\ op_fetch_account <> op_upload_image /\
   content_type req = None /\ exists d, data req = Some (VDict d)) \/
  (method req = "POST" /\ op_fetch_account = op_upload_image /\
   content_type req = Some "image/jpg" /\ exists bs, data req = Some (VBytes bs)).
Proof.
  intros req. apply (request_shape op_fetch_account ∅ demo_state req).
  vm_compute. reflexivity.
Defined.

(** ** The two delete requests *)

(** X6: [delete_request] and [delete_request_cancel] send the same
    payload, [secret = "0 " + str(password)], [deviceID], [email] and
    [timestamp] in this order, by [POST]; the two requests differ in their
    url only.  A password given as [None] is sent as the secret
    ["0 None"]. *)
Theorem delete_requests_differ_in_url (st : State) (s : Session)
    (email password : pyval) :
  self_dict st !! "session" = Some (ASession s) ->
  exists d,
    issued (delete_request email password) st =
      [ {| method := "POST"; url := "/g/s/account/delete-request";
           data := Some (VDict d); content_type := None |} ] /\
    issued (delete_request_cancel email password) st =
      [ {| method := "POST"; url := "/g/s/account/delete-request/cancel";
           data := Some (VDict d); content_type := None |} ] /\
    d = [ ("secret", VStr ("0 " ++ py_format password));
          ("deviceID", VStr (devs st 0));
          ("email", val email);
          ("timestamp", VInt (millis (clock st 0))) ] /\
    (password = PNone -> dict_get "secret" d = Some (VStr "0 None")).
Proof.
  intros Hsession. eexists.
  split; [run_method Hsession; one_request s; reflexivity |].
  split; [run_method Hsession; one_request s; reflexivity |].
  split; [reflexivity |].
  intros ->. reflexivity.
Qed.

Lemma delete_requests_differ_in_url_witness :
  exists d,
    issued (delete_request (PStr "a@b.c") PNone) demo_state =
      [ {| method := "POST"; url := "/g/s/account/delete-request";
           data := Some (VDict d); content_type := None |} ] /\
    issued (delete_request_cancel (PStr "a@b.c") PNone) demo_state =
      [ {| method := "POST"; url := "/g/s/account/delete-request/cancel";
           data := Some (VDict d); content_type := None |} ] /\
    d = [ ("secret", VStr "0 None");
          ("deviceID", VStr "A-device");
          ("email", VStr "a@b.c");
          ("timestamp", VInt 1700000000123) ] /\
    (PNone = PNone -> dict_get "secret" d = Some (VStr "0 None")).
Proof.
  apply (delete_requests_differ_in_url demo_state demo_session (PStr "a@b.c") PNone).
  vm_compute. reflexivity.
Defined.

(** ** Keys of the payloads *)

Lemma distinct_NoDup (ks : list string) : distinct ks = true -> NoDup ks.
Proof.
  induction ks as [| k ks IH]; cbn [distinct].
  - intros _. constructor.
  - intros H. apply andb_prop in H as [Hk Hks]. constructor.
    + intros Hin. apply negb_true_iff in Hk.
      assert (Hex : existsb (String.eqb k) ks = true).
      { apply existsb_exists. exists k. split.
        - apply list_elem_of_In, Hin.
        - apply String.eqb_refl. }
      congruence.
    + apply IH, Hks.
Qed.

Lemma well_keyed_val (a : pyval) : well_keyed (val a) = true.
Proof. destruct a; reflexivity. Qed.

Lemma body_well_keyed (op : operation) (locals : gmap string pyval)
    (st : State) (req : Request) (v : value) :
  issued (body op locals) st = [req] ->
  data req = Some v ->
  well_keyed v = true.
Proof.
  intros Hissued. revert Hissued v.
  destruct op; issued_cases; intros v [= <-];
    cbn; rewrite ?well_keyed_val; try reflexivity.
  all: destruct (truthy _); reflexivity.
Qed.

(** X7: in every payload that a method sends, each dict names each of its
    keys once, the dicts nested under [validationContext],
    [emailValidationContext] and [data] included; so no item of a dict
    display is lost to a later item of the same key (in [register], [type]
    and [identity] occur at the top and under [validationContext], never
    twice in one dict).  This holds for all arguments. *)
Theorem payload_keys_distinct (op : operation) (kwargs : gmap string pyval)
    (st : State) (req : Request) (d : list (string * value)) :
  issued (call op kwargs) st = [req] ->
  data req = Some (VDict d) ->
  NoDup (keys d) /\
  well_keyed (VDict d) = true /\
  (forall k d', In (k, VDict d') d -> NoDup (keys d')).
Proof.
  rewrite issued_call.
  destruct (bind_args (signature op) kwargs) as [locals | e]; [| discriminate].
  intros Hissued Hdata.
  pose proof (body_well_keyed op locals st req _ Hissued Hdata) as Hwk.
  split; [| split; [exact Hwk |]].
  - cbn [well_keyed] in Hwk. apply andb_prop in Hwk as [Hd _].
    apply distinct_NoDup, Hd.
  - intros k d' Hin. cbn [well_keyed] in Hwk. apply andb_prop in Hwk as [_ Hall].
    rewrite forallb_forall in Hall. specialize (Hall _ Hin).
    cbn [snd well_keyed] in Hall. apply andb_prop in Hall as [Hd' _].
    apply distinct_NoDup, Hd'.
Qed.

Lemma payload_keys_distinct_witness :
  let d := [ ("secret", VStr "0 hunter2");
             ("deviceID", VStr "A-device");
             ("email", VStr "a@b.c");
             ("clientType", VInt 100);
             ("nickname", VStr "ann");
             ("validationContext", VDict
                [ ("data", VDict [ ("code", VStr "123456") ]);
                  ("type", VInt 1);
                  ("identity", VStr "a@b.c") ]);
             ("type", VInt 1);
             ("identity", VStr "a@b.c");
             ("timestamp", VInt 1700000000123) ] in
  NoDup (keys d) /\
  well_keyed (VDict d) = true /\
  (forall k d', In (k, VDict d') d -> NoDup (keys d')).
Proof.
  intros d.
  apply (payload_keys_distinct op_register
           {[ "email" := PStr "a@b.c"; "password" := PStr "hunter2";
              "username" := PStr "ann"; "verificationCode" := PStr "123456" ]}
           demo_state
           {| method := "POST"; url := "/g/s/auth/register";
              data := Some (VDict d); content_type := None |} d).
  - vm_compute. reflexivity.
  - reflexivity.
Defined.

(** ** One endpoint for each method *)

Lemma body_url (op : operation) (locals : gmap string pyval)
    (st : State) (req : Request) :
  issued (body op locals) st = [req] ->
  match op with
  | op_register => url req = "/g/s/auth/register"
  | op_delete_request => url req = "/g/s/account/delete-request"
  | op_delete_request_cancel => url req = "/g/s/account/delete-request/cancel"
  | op_check_device => url req = "/g/s/device/check"
  | op_fetch_account => url req = "/g/s/account"
  | op_upload_image => url req = "/g/s/media/upload"
  | op_fetch_profile =>
      exists a, self_dict st !! "userId" = Some a /\
                url req = ("/g/s/user-profile/" ++ format_attr a)%string
  | op_set_amino_id => url req = "/g/s/account/change-amino-id"
  | op_fetch_wallet => url req = "/g/s/wallet"
  | op_request_security_validation =>
      url req = "/g/s/auth/request-security-validation"
  | op_activate_email => url req = "/g/s/auth/activate-email"
  | op_reset_password => url req = "/g/s/auth/reset-password"
  end.
Proof.
  destruct op; issued_cases; try reflexivity.
  all: eexists; split; reflexivity.
Qed.

(** X8: the url of a request tells which method sent it.  Two calls, of
    any methods, with any arguments and in any states, that send requests
    with the same url are calls of the same method; this includes
    [fetch_profile], whatever [userId] holds, and the pair
    [delete_request] and [delete_request_cancel]. *)
Theorem url_identifies_method (op1 op2 : operation)
    (kwargs1 kwargs2 : gmap string pyval) (st1 st2 : State) (req1 req2 : Request) :
  issued (call op1 kwargs1) st1 = [req1] ->
  issued (call op2 kwargs2) st2 = [req2] ->
  url req1 = url req2 ->
  op1 = op2.
Proof.
  rewrite !issued_call.
  destruct (bind_args (signature op1) kwargs1) as [locals1 | e1]; [| discriminate].
  destruct (bind_args (signature op2) kwargs2) as [locals2 | e2]; [| discriminate].
  intros H1 H2 Hurl.
  apply body_url in H1. apply body_url in H2.
  destruct op1, op2; try reflexivity; exfalso.
  all: repeat match goal with
         | H : exists a, _ /\ _ |- _ => destruct H as (? & _ & H)
         end.
  all: rewrite H1, H2 in Hurl; cbn in Hurl; discriminate Hurl.
Qed.

Lemma url_identifies_method_witness : op_fetch_wallet = op_fetch_wallet.
Proof.
  apply (url_identifies_method op_fetch_wallet op_fetch_wallet ∅ ∅
           demo_state refused_state
           {| method := "GET"; url := "/g/s/wallet";
              data := None; content_type := None |}
           {| method := "GET"; url := "/g/s/wallet";
              data := None; content_type := None |}).
  - vm_compute. reflexivity.
  - vm_compute. reflexivity.
  - reflexivity.
Defined.

(** ** Which calls are accepted *)

Lemma signature_NoDup (op : operation) : NoDup (map fst (signature op)).
Proof. destruct op; apply distinct_NoDup; reflexivity. Qed.

(** Every parameter holds its argument, or else its default. *)
Lemma bind_params_lookup (sig : list (string * option pyval))
    (kwargs locals : gmap string pyval) (p : string) (dflt : option pyval) :
  bind_params sig kwargs = Return locals ->
  NoDup (map fst sig) ->
  In (p, dflt) sig ->
  locals !! p = from_option Some dflt (kwargs !! p).
Proof.
  revert locals. induction sig as [| [q d] sig IH]; intros locals Hbind Hnodup Hin.
  - destruct Hin.
  - cbn [bind_params] in Hbind. cbn [map fst] in Hnodup.
    apply NoDup_cons in Hnodup as [Hq Hnodup].
    destruct (from_option Some d (kwargs !! q)) as [v |] eqn:Hv; [| discriminate].
    destruct (bind_params sig kwargs) as [locals' | e]; [| discriminate].
    injection Hbind as <-.
    destruct Hin as [[= -> ->] | Hin].
    + rewrite lookup_insert_eq. symmetry. exact Hv.
    + rewrite lookup_insert_ne.
      * apply IH; auto.
      * intros ->. apply Hq. apply list_elem_of_In.
        apply in_map_iff. exists (p, dflt). auto.
Qed.

Lemma bind_args_local (op : operation) (kwargs locals : gmap string pyval)
    (p : string) (dflt : option pyval) :
  bind_args (signature op) kwargs = Return locals ->
  In (p, dflt) (signature op) ->
  local locals p = default (default PNone dflt) (kwargs !! p).
Proof.
  unfold bind_args, local. case_bool_decide; [| discriminate].
  intros Hbind Hin.
  rewrite (bind_params_lookup _ _ _ _ _ Hbind (signature_NoDup op) Hin).
  destruct (kwargs !! p), dflt; reflexivity.
Qed.

Lemma bind_args_accepts (sig : list (string * option pyval))
    (kwargs locals : gmap string pyval) :
  bind_args sig kwargs = Return locals ->
  (forall k, is_Some (kwargs !! k) -> In k (map fst sig)) /\
  (forall p, In (p, None) sig -> is_Some (kwargs !! p)).
Proof.
  intros Hbind. split.
  - unfold bind_args in Hbind. case_bool_decide as Hdom; [| discriminate].
    intros k Hk. apply elem_of_dom in Hk. apply Hdom in Hk.
    apply elem_of_list_to_set in Hk. apply list_elem_of_In, Hk.
  - intros p Hin.
    destruct (bind_args_required _ _ _ _ Hbind Hin) as (v & Hv & _). eauto.
Qed.

(** X9: a call is accepted exactly when every keyword names a parameter
    of the method and every parameter without a default has an argument.
    An accepted call runs the body with each parameter holding its
    argument, or its default when there is none ([resetPassword] alone has
    one, [False]); any other call raises [TypeError] and leaves the state
    as it was, so nothing is sent. *)
Theorem call_accepted_or_type_error (op : operation) (kwargs : gmap string pyval)
    (st : State) :
  ((forall k, is_Some (kwargs !! k) -> In k (map fst (signature op))) /\
   (forall p, In (p, None) (signature op) -> is_Some (kwargs !! p)) ->
   exists locals,
     call op kwargs st = body op locals st /\
     forall p dflt, In (p, dflt) (signature op) ->
       local locals p = default (default PNone dflt) (kwargs !! p)) /\
  (~ ((forall k, is_Some (kwargs !! k) -> In k (map fst (signature op))) /\
      (forall p, In (p, None) (signature op) -> is_Some (kwargs !! p))) ->
   call op kwargs st = (Raise TypeError, st)).
Proof.
  rewrite call_unfold. split.
  - intros [Hkeys Hreq].
    destruct (bind_args_total (signature op) kwargs) as [locals Hbind].
    { intros k Hk. apply elem_of_dom in Hk. apply elem_of_list_to_set.
      apply list_elem_of_In, Hkeys, Hk. }
    { exact Hreq. }
    exists locals. rewrite Hbind. split; [reflexivity |].
    intros p dflt Hin. eapply bind_args_local; eassumption.
  - intros Hnot.
    destruct (bind_args (signature op) kwargs) as [locals | e] eqn:Hbind.
    + exfalso. apply Hnot. eapply bind_args_accepts, Hbind.
    + apply bind_args_raises in Hbind. subst e. reflexivity.
Qed.

(** X10: the flag of [request_security_validation].  Leaving
    [resetPassword] out of the call is the same as passing [False]; and
    the flag counts by its truth value only, so [None] and the empty
    string give the payload of [False] ([level] and [purpose] both
    [None]), a non-empty string the payload of [True]. *)
Theorem reset_flag_default_and_truth (email : pyval) (st : State) :
  call op_request_security_validation {[ "email" := email ]} st =
    request_security_validation email (PBool false) st /\
  call op_request_security_validation
    {[ "email" := email; "resetPassword" := PBool false ]} st =
    request_security_validation email (PBool false) st /\
  (forall flag,
      request_security_validation email flag st =
      request_security_validation email (PBool (truthy flag)) st) /\
  truthy PNone = false /\
  truthy (PStr "") = false /\
  (forall c rest, truthy (PStr (String c rest)) = true).
Proof.
  assert (Hcall : forall kwargs : gmap string pyval,
             dom kwargs ⊆ {[ "email"; "resetPassword" ]} ->
             kwargs !! "email" = Some email ->
             default (PBool false) (kwargs !! "resetPassword") = PBool false ->
             call op_request_security_validation kwargs st =
               request_security_validation email (PBool false) st).
  { intros kwargs Hdom Hemail Hflag. rewrite call_unfold.
    destruct (bind_args_total (signature op_request_security_validation) kwargs)
      as [locals Hbind].
    { cbn. set_solver. }
    { intros p [[= <-] | [[=] | []]]. rewrite Hemail. eauto. }
    rewrite Hbind. cbn [body].
    rewrite (bind_args_local _ _ _ "email" None Hbind) by (cbn; auto).
    rewrite (bind_args_local _ _ _ "resetPassword" (Some (PBool false)) Hbind)
      by (cbn; auto).
    rewrite Hemail.
    change (default PNone (Some (PBool false))) with (PBool false).
    rewrite Hflag. reflexivity. }
  split; [| split; [| split; [| split; [| split]]]].
  - apply Hcall; [set_solver | vm_compute; reflexivity | vm_compute; reflexivity].
  - apply Hcall; [set_solver | vm_compute; reflexivity | vm_compute; reflexivity].
  - intros flag. reflexivity.
  - reflexivity.
  - reflexivity.
  - intros c rest. reflexivity.
Qed.

(** ** Attributes that the methods do not read *)

(** A body reads two attributes, [session] and [userId], and nothing else
    of the instance. *)
Lemma body_attr_ext (op : operation) (locals : gmap string pyval) (st1 st2 : State) :
  self_dict st1 !! "session" = self_dict st2 !! "session" ->
  (op = op_fetch_profile -> self_dict st1 !! "userId" = self_dict st2 !! "userId") ->
  devs st1 = devs st2 ->
  clock st1 = clock st2 ->
  fs st1 = fs st2 ->
  sent st1 = sent st2 ->
  fst (body op locals st1) = fst (body op locals st2) /\
  sent (snd (body op locals st1)) = sent (snd (body op locals st2)).
Proof.
  destruct st1 as [self1 devs1 clock1 fs1 sent1], st2 as [self2 devs2 clock2 fs2 sent2].
  cbn [self_dict fs devs clock sent]. intros Hsession Huid -> -> -> ->.
  destruct op; unfold_body; rewrite Hsession;
    destruct (self2 !! "session") as [[s | v] |];
    cbn -[String.append millis lookup py_int];
    try rewrite (Huid eq_refl);
    split_run; split; reflexivity.
Qed.

(** X11: the methods read no attribute of the instance but [session]
    and, in [fetch_profile], [userId].  Setting any other attribute of the
    instance, such as [debug], to any value changes neither the outcome of
    a call nor the request it sends; for every method but [fetch_profile]
    the same holds of [userId].  The attribute is one that holds data: its
    name is not the name of a method, which an attribute of the instance
    would hide from the call, and not [__class__] or [__dict__]. *)
Theorem other_attributes_unused (op : operation) (kwargs : gmap string pyval)
    (st : State) (name : string) (a : attr) :
  (forall m, name <> method_name m) ->
  name <> "__class__" ->
  name <> "__dict__" ->
  name <> "session" ->
  (op = op_fetch_profile -> name <> "userId") ->
  fst (call op kwargs (snd (setattr name a st))) = fst (call op kwargs st) /\
  issued (call op kwargs) (snd (setattr name a st)) = issued (call op kwargs) st.
Proof.
  intros _ _ _ Hsession Huid. rewrite !issued_call, !call_unfold.
  destruct (bind_args (signature op) kwargs) as [locals | e]; [| auto].
  destruct (body_attr_ext op locals (snd (setattr name a st)) st) as [Hout Hsent];
    try reflexivity.
  - cbn. apply lookup_insert_ne. exact Hsession.
  - intros Hop. cbn. apply lookup_insert_ne. auto.
  - split; [exact Hout |]. unfold issued. rewrite Hsent. reflexivity.
Qed.

Lemma other_attributes_unused_witness :
  fst (call op_fetch_account ∅ (snd (setattr "debug" (AVal (PBool true)) demo_state))) =
    fst (call op_fetch_account ∅ demo_state) /\
  issued (call op_fetch_account ∅) (snd (setattr "debug" (AVal (PBool true)) demo_state)) =
    issued (call op_fetch_account ∅) demo_state.
Proof.
  apply (other_attributes_unused op_fetch_account ∅ demo_state "debug"
           (AVal (PBool true))); try discriminate.
  intros m. destruct m; discriminate.
Defined.

(** ** Sequences of calls *)

Lemma call_sent (op : operation) (kwargs : gmap string pyval) (st : State) :
  exists new,
    sent (snd (call op kwargs st)) = sent st ++ new /\ (length new <= 1)%nat.
Proof.
  rewrite call_unfold.
  destruct (bind_args (signature op) kwargs) as [locals | e].
  - destruct (body_outcome op locals st)
      as [(e & Hrun & _) | (s & req & _ & Hsent & _)].
    + exists []. rewrite Hrun, app_nil_r. split; [reflexivity | cbn; lia].
    + exists [req]. split; [exact Hsent | cbn; lia].
  - exists []. rewrite app_nil_r. split; [reflexivity | cbn; lia].
Qed.

Lemma call_sent_one (op : operation) (kwargs locals : gmap string pyval)
    (st : State) (s : Session) :
  self_dict st !! "session" = Some (ASession s) ->
  op <> op_fetch_profile ->
  op <> op_upload_image ->
  bind_args (signature op) kwargs = Return locals ->
  exists req, sent (snd (call op kwargs st)) = sent st ++ [req].
Proof.
  intros Hsession Hprofile Hupload Hbind. rewrite call_unfold, Hbind.
  destruct (body_reaches_handler op locals st s Hsession Hprofile)
    as (req & Hsent & _); [congruence | eauto].
Qed.

(** X12: calls made one after the other only add to the log of requests,
    at most one request for each call: nothing sent earlier is removed or
    changed and no call is sent twice.  When the instance has a session
    and every call is an accepted call of a method other than
    [fetch_profile] and [upload_image], the log grows by exactly one
    request for each call, whether the handler answers or raises. *)
Theorem log_grows_by_calls (calls : list (operation * gmap string pyval)) (st : State) :
  (exists new,
      sent (run_calls calls st) = sent st ++ new /\
      (length new <= length calls)%nat) /\
  (forall s,
      self_dict st !! "session" = Some (ASession s) ->
      Forall (fun c => fst c <> op_fetch_profile /\ fst c <> op_upload_image /\
                       exists locals, bind_args (signature (fst c)) (snd c) = Return locals)
             calls ->
      length (sent (run_calls calls st)) = (length (sent st) + length calls)%nat).
Proof.
  split.
  - revert st. induction calls as [| [op kwargs] calls IH]; intros st; cbn [run_calls].
    + exists []. rewrite app_nil_r. split; [reflexivity | cbn; lia].
    + destruct (call_sent op kwargs st) as (new1 & H1 & Hlen1).
      destruct (IH (snd (call op kwargs st))) as (new2 & H2 & Hlen2).
      exists (new1 ++ new2). rewrite H2, H1, app_assoc.
      split; [reflexivity |]. rewrite length_app. cbn [length]. lia.
  - intros s. revert st.
    induction calls as [| [op kwargs] calls IH]; intros st Hsession Hall;
      cbn [run_calls].
    + cbn. lia.
    + apply Forall_cons in Hall as [(Hp & Hu & locals & Hbind) Hall].
      cbn [fst snd] in Hp, Hu, Hbind.
      destruct (call_sent_one op kwargs locals st s Hsession Hp Hu Hbind)
        as [req Hsent].
      rewrite IH; [| rewrite call_keeps_self; exact Hsession | exact Hall].
      rewrite Hsent, length_app. cbn [length]. lia.
Qed.

(** ** The constructor and [userId] *)

(** X13: [__init__] sends nothing, and assigns [session] and [debug]
    without touching any other attribute.  So whatever session the
    instance had before, the handler of the new session answers the calls
    that follow; and a [userId] set before [__init__] ran is still there
    for [fetch_profile], which formats it into the url as [str] does, a
    [userId] of [None] giving the url [/g/s/user-profile/None]. *)
Theorem init_replaces_session (st : State) (s : Session) (debug : pyval) :
  issued (__init__ (ASession s) debug) st = [] /\
  sent (snd (__init__ (ASession s) debug st)) = sent st /\
  (forall name, name <> "session" -> name <> "debug" ->
     self_dict (snd (__init__ (ASession s) debug st)) !! name = self_dict st !! name) /\
  fst (fetch_account (snd (__init__ (ASession s) debug st))) =
    match handler s (sent st ++ [ {| method := "GET"; url := "/g/s/account";
                                     data := None; content_type := None |} ]) with
    | Return r => Return (Attribute SResponse "json" r)
    | Raise e => Raise e
    end /\
  (forall u, self_dict st !! "userId" = Some (AVal u) ->
     issued fetch_profile (snd (__init__ (ASession s) debug st)) =
       [ {| method := "GET"; url := "/g/s/user-profile/" ++ py_format u;
            data := None; content_type := None |} ]) /\
  (self_dict st !! "userId" = Some (AVal PNone) ->
     issued fetch_profile (snd (__init__ (ASession s) debug st)) =
       [ {| method := "GET"; url := "/g/s/user-profile/None";
            data := None; content_type := None |} ]).
Proof.
  assert (Hsession :
    self_dict (snd (__init__ (ASession s) debug st)) !! "session" = Some (ASession s)).
  { cbn. rewrite lookup_insert_ne by discriminate. apply lookup_insert_eq. }
  assert (Hother : forall name, name <> "session" -> name <> "debug" ->
    self_dict (snd (__init__ (ASession s) debug st)) !! name = self_dict st !! name).
  { intros name Hs Hd. cbn. rewrite !lookup_insert_ne by congruence. reflexivity. }
  assert (Hprofile : forall u, self_dict st !! "userId" = Some (AVal u) ->
     issued fetch_profile (snd (__init__ (ASession s) debug st)) =
       [ {| method := "GET"; url := "/g/s/user-profile/" ++ py_format u;
            data := None; content_type := None |} ]).
  { intros u Hu.
    assert (Hu' : self_dict (snd (__init__ (ASession s) debug st)) !! "userId"
                  = Some (AVal u)).
    { rewrite Hother by discriminate. exact Hu. }
    clear Hother. revert Hsession Hu'.
    generalize (snd (__init__ (ASession s) debug st)). intros st' Hsession Hu'.
    assert (Hget : getattr "userId" st' = (Return (AVal u), st'))
      by (unfold getattr; rewrite Hu'; reflexivity).
    run_method Hsession. rewrite (bind_run _ _ _ _ _ Hget).
    cbn -[String.append]. one_request s; reflexivity. }
  split; [apply drop_log_nil |]. split; [reflexivity |]. split; [exact Hother |].
  split; [| split; [exact Hprofile |]].
  - run_method Hsession. destruct (handler s _); reflexivity.
  - intros Hu. apply (Hprofile PNone Hu).
Qed.

(** X14: the url of [fetch_profile] keeps the [userId] apart: when two
    instances whose [userId] are strings send their [fetch_profile]
    requests to the same url, the two [userId] are the same string. *)
Theorem profile_url_injective (st1 st2 : State) (u1 u2 : string)
    (req1 req2 : Request) :
  self_dict st1 !! "userId" = Some (AVal (PStr u1)) ->
  self_dict st2 !! "userId" = Some (AVal (PStr u2)) ->
  issued fetch_profile st1 = [req1] ->
  issued fetch_profile st2 = [req2] ->
  url req1 = url req2 ->
  u1 = u2.
Proof.
  intros Hu1 Hu2 H1 H2 Hurl.
  apply (body_url op_fetch_profile ∅) in H1 as (a1 & Ha1 & Hurl1).
  apply (body_url op_fetch_profile ∅) in H2 as (a2 & Ha2 & Hurl2).
  rewrite Hu1 in Ha1. rewrite Hu2 in Ha2.
  injection Ha1 as <-. injection Ha2 as <-.
  rewrite Hurl1, Hurl2 in Hurl. cbn in Hurl.
  injection Hurl as Hurl. exact Hurl.
Qed.

Lemma profile_url_injective_witness : "u-1" = "u-1".
Proof.
  apply (profile_url_injective
           (snd (setattr "userId" (AVal (PStr "u-1")) demo_state))
           (snd (setattr "userId" (AVal (PStr "u-1")) refused_state))
           "u-1" "u-1"
           {| method := "GET"; url := "/g/s/user-profile/u-1";
              data := None; content_type := None |}
           {| method := "GET"; url := "/g/s/user-profile/u-1";
              data := None; content_type := None |});
    vm_compute; reflexivity.
Defined.
